(** * hops-util-py: Kafka helpers, model-serving client and query planner

    A shallow embedding of [hops/kafka.py], [hops/serving.py] and of the
    parts of the feature-store query planner exercised by
    [hops/tests/test_featurestore.py], with the properties the
    specification states about them. *)

From Stdlib Require Import String Ascii List ZArith Lia Bool.
From stdpp Require Import base option gmap strings list pretty.

Local Set Warnings "-register-all".

Local Open Scope string_scope.
Local Open Scope list_scope.
Local Open Scope Z_scope.

(** ** Python strings *)

Module Py.

(** [s.startswith(p)]. *)
Definition startswith (s p : string) : bool := String.prefix p s.

(** The scan shared by [str.replace] and [str.split]: matches of [old] are
    taken left to right and never overlap; [skip] counts the characters of
    the current match that are still to be stepped over. *)
Fixpoint replace_from (old new : string) (skip : nat) (s : string) : string :=
  match s with
  | EmptyString => EmptyString
  | String c s' =>
      match skip with
      | S k => replace_from old new k s'
      | O =>
          if startswith s old
          then String.append new (replace_from old new (Nat.pred (String.length old)) s')
          else String c (replace_from old new O s')
      end
  end.

(** [new.join(list(s))] with [new] also put in front and behind, which is what
    [s.replace("", new)] gives. *)
Fixpoint replace_empty (new : string) (s : string) : string :=
  match s with
  | EmptyString => new
  | String c s' => String.append new (String c (replace_empty new s'))
  end.

(** [s.replace(old, new)]. *)
Definition str_replace (s old new : string) : string :=
  match old with
  | EmptyString => replace_empty new s
  | String _ _ => replace_from old new O s
  end.

(** The pieces of [s] between the matches of [sep]; the head of the result
    is the piece being read. *)
Fixpoint split_from (sep : string) (skip : nat) (s : string) : list string :=
  match s with
  | EmptyString => [EmptyString]
  | String c s' =>
      match skip with
      | S k => split_from sep k s'
      | O =>
          if startswith s sep
          then EmptyString :: split_from sep (Nat.pred (String.length sep)) s'
          else match split_from sep O s' with
               | p :: ps => String c p :: ps
               | [] => [String c EmptyString]
               end
      end
  end.

(** [s.split(sep)] for a given separator; [None] stands for the
    [ValueError] Python raises on an empty separator. *)
Definition str_split (s sep : string) : option (list string) :=
  match sep with
  | EmptyString => None
  | String _ _ => Some (split_from sep O s)
  end.

(** [s.endswith(suffix)]. *)
Definition endswith (s suffix : string) : bool :=
  let n := String.length s in
  let m := String.length suffix in
  (m <=? n)%nat && String.eqb (String.substring (n - m) m s) suffix.

(** [sep.join(l)] for a list of strings. *)
Definition str_join (sep : string) (l : list string) : string :=
  String.concat sep l.

End Py.


(** ** Python values, exceptions and effects *)

(** The values that cross the JSON boundary and the dynamically checked
    arguments of the client: [None], booleans, integers, strings, lists and
    dictionaries with string keys. *)
Inductive value :=
| VNone
| VBool (b : bool)
| VInt (n : Z)
| VStr (s : string)
| VList (l : list value)
| VDict (d : gmap string value).

(** [isinstance(v, int)]: [bool] is a subclass of [int]. *)
Definition isinstance_int (v : value) : bool :=
  match v with VInt _ | VBool _ => true | _ => false end.

(** [isinstance(v, bool)]. *)
Definition isinstance_bool (v : value) : bool :=
  match v with VBool _ => true | _ => false end.

(** Truth value of [v] in a condition. *)
Definition truthy (v : value) : bool :=
  match v with
  | VNone => false
  | VBool b => b
  | VInt n => negb (n =? 0)
  | VStr s => negb (String.eqb s "")
  | VList l => match l with [] => false | _ => true end
  | VDict d => negb (bool_decide (d = ∅))
  end.

Inductive exn_class :=
| KeyError
| TypeError
| ValueError
| RestAPIError
| ServingNotFound
| FeatureNotFound
| FeatureNameCollisionError.

Definition exn_class_eqb (a b : exn_class) : bool :=
  match a, b with
  | KeyError, KeyError | TypeError, TypeError | ValueError, ValueError
  | RestAPIError, RestAPIError | ServingNotFound, ServingNotFound
  | FeatureNotFound, FeatureNotFound
  | FeatureNameCollisionError, FeatureNameCollisionError => true
  | _, _ => false
  end.

(** A raised exception: its class and the arguments its message is
    formatted from (the message text itself is not kept). *)
Record exn := Exn { exn_cls : exn_class; exn_args : list value }.

Inductive result (A : Type) :=
| Ok (a : A)
| Raise (e : exn).
Arguments Ok {A} a.
Arguments Raise {A} e.

Definition is_Ok {A} (r : result A) : bool :=
  match r with Ok _ => true | Raise _ => false end.

(** The class of the exception [r] ends with, if it ends with one. *)
Definition raised {A} (r : result A) : option exn_class :=
  match r with Ok _ => None | Raise e => Some (exn_cls e) end.

(** [d[k]] on a dictionary. *)
Definition getitem {A} (d : gmap string A) (k : string) : result A :=
  match d !! k with
  | Some v => Ok v
  | None => Raise (Exn KeyError [VStr k])
  end.

(** A request handed to [util.send_request]. *)
Record Request := {
  req_method : string;
  req_url : string;
  req_data : option string;
  req_headers : option (gmap string string)
}.

(** The response object of [util.send_request]; [json] is what calling
    [response.json()] gives: the decoded body, or the exception raised when
    the body is not JSON. *)
Record Response := {
  status_code : Z;
  reason : string;
  json : result value
}.

(** A request made on an [http.client] connection, as [get_schema] does. *)
Record HttpRequest := {
  http_https : bool;
  http_method : string;
  http_url : string;
  http_body : string;
  http_headers : gmap string string
}.

(** What the program does to the outside, in order. *)
Inductive event :=
| Print (template : string) (args : list value)
| Sent (r : Request)
| HttpSent (r : HttpRequest).

Definition requests_of (t : list event) : list Request :=
  omap (fun e => match e with Sent r => Some r | _ => None end) t.

Definition http_requests_of (t : list event) : list HttpRequest :=
  omap (fun e => match e with HttpSent r => Some r | _ => None end) t.

(** Computations: they extend the trace of events and end with a value or
    an exception. *)
Definition M (A : Type) : Type := list event -> result A * list event.

Definition ret {A} (a : A) : M A := fun t => (Ok a, t).

Definition raise {A} (e : exn) : M A := fun t => (Raise e, t).

Definition bind {A B} (m : M A) (f : A -> M B) : M B :=
  fun t =>
    match m t with
    | (Ok a, t') => f a t'
    | (Raise e, t') => (Raise e, t')
    end.

Definition lift {A} (r : result A) : M A := fun t => (r, t).

Definition print (template : string) (args : list value) : M unit :=
  fun t => (Ok tt, t ++ [Print template args]).

(** [try: body except cls: handler]. *)
Definition try_except {A} (body : M A) (cls : exn_class) (handler : exn -> M A) : M A :=
  fun t =>
    match body t with
    | (Ok a, t') => (Ok a, t')
    | (Raise e, t') =>
        if exn_class_eqb (exn_cls e) cls then handler e t' else (Raise e, t')
    end.

#[global] Instance M_ret : MRet M := @ret.
#[global] Instance M_bind : MBind M := fun A B f m => bind m f.

(** ** Constants ([hops/constants.py]) *)

Module constants.

Module ENV_VARIABLES.
Definition KAFKA_BROKERS_ENV_VAR := "KAFKA_BROKERS".
End ENV_VARIABLES.

Module KAFKA_SSL_CONFIG.
Definition SSL_TRUSTSTORE_LOCATION_CONFIG := "ssl.truststore.location".
Definition SSL_TRUSTSTORE_PASSWORD_CONFIG := "ssl.truststore.password".
Definition SSL_KEYSTORE_LOCATION_CONFIG := "ssl.keystore.location".
Definition SSL_KEYSTORE_PASSWORD_CONFIG := "ssl.keystore.password".
Definition SSL_KEY_PASSWORD_CONFIG := "ssl.key.password".
Definition SECURITY_PROTOCOL_CONFIG := "security.protocol".
End KAFKA_SSL_CONFIG.

Module KAFKA_PRODUCER_CONFIG.
Definition BOOTSTRAP_SERVERS_CONFIG := "bootstrap.servers".
Definition KEY_SERIALIZER_CLASS_CONFIG := "key.serializer".
Definition VALUE_SERIALIZER_CLASS_CONFIG := "value.serializer".
End KAFKA_PRODUCER_CONFIG.

Module REST_CONFIG.
Definition JSON_SCHEMA_TOPICNAME := "topicName".
Definition JSON_SCHEMA_VERSION := "version".
Definition HOPSWORKS_REST_RESOURCE := "hopsworks-api/api".
Definition HOPSWORKS_REST_APPSERVICE := "appservice".
End REST_CONFIG.

End constants.

(** The constants [hops/serving.py] reads from [constants.HTTP_CONFIG],
    [constants.DELIMITERS], [constants.REST_CONFIG] and
    [constants.MODEL_SERVING] that the [constants.py] at hand does not
    declare; they are parameters of the embedding. *)
Record ServingConstants := {
  HTTP_GET : string;
  HTTP_PUT : string;
  HTTP_POST : string;
  HTTP_DELETE : string;
  HTTP_CONTENT_TYPE : string;
  HTTP_APPLICATION_JSON : string;
  SLASH_DELIMITER : string;
  HOPSWORKS_PROJECT_RESOURCE : string;
  HOPSWORKS_SERVING_RESOURCE : string;
  HOPSWORKS_INFERENCE_RESOURCE : string;
  HOPSWORKS_MODELS_RESOURCE : string;
  JSON_SERVING_MODEL_VERSION : string;
  JSON_SERVING_ARTIFACT_PATH : string;
  JSON_MODEL_SERVER : string;
  JSON_SERVING_TOOL : string;
  JSON_SERVING_NAME : string;
  JSON_SERVING_KAFKA_TOPIC_DTO : string;
  JSON_KAFKA_TOPIC_NAME : string;
  JSON_KAFKA_NUM_PARTITIONS : string;
  JSON_KAFKA_NUM_REPLICAS : string;
  JSON_SERVING_REQUESTED_INSTANCES : string;
  JSON_SERVING_ID : string;
  JSON_SERVING_BATCHING_ENABLED : string;
  JSON_SERVING_STATUS : string;
  JSON_SERVING_CREATOR : string;
  JSON_SERVING_CREATED : string;
  SERVING_ACTION_START : string;
  SERVING_ACTION_STOP : string;
  SERVING_START_OR_STOP_PATH_PARAM : string;
  MODEL_SERVER_TENSORFLOW_SERVING : string;
  MODEL_SERVER_FLASK : string;
  MODEL_SERVERS : list string;
  SERVING_TOOL_DEFAULT : string;
  SERVING_TOOL_KFSERVING : string
}.

(** The response read from an [http.client] connection. *)
Record HttpResponse := {
  http_status : Z;
  http_read : string
}.

(** The surroundings of the client: the process environment, the modules
    of the package that are called but not at hand ([tls], [rest_api],
    [util], [hdfs], [kafka.KafkaTopicDTO]), the [json] codec and the
    backend, which answers a request knowing what happened before it. *)
Record World := {
  os_environ : gmap string string;
  tls_get_trust_store : string;
  tls_get_trust_store_pwd : string;
  tls_get_key_store : string;
  tls_get_key_store_pwd : string;
  rest_prepare_rest_appservice_json_request : gmap string value;
  http_getresponse : list event -> HttpRequest -> HttpResponse;
  json_dumps : value -> string;
  json_loads : string -> result value;
  util_send_request : list event -> Request -> Response;
  util_parse_rest_error : value -> value * value * value;
  hdfs_project_id : string;
  hdfs_project_name : string;
  hdfs_expand_path : string -> string;
  hdfs_get_plain_path : string -> string;
  hdfs_exists : string -> bool;
  KafkaTopicDTO : value -> value
}.

(** ** [hops/kafka.py] *)

Module kafka.
Import constants.

Section kafka.
Context (W : World).

(** [os.environ[KAFKA_BROKERS].replace("INTERNAL://", "")]. *)
Definition get_broker_endpoints : result string :=
  match getitem (os_environ W) ENV_VARIABLES.KAFKA_BROKERS_ENV_VAR with
  | Ok brokers => Ok (Py.str_replace brokers "INTERNAL://" "")
  | Raise e => Raise e
  end.

Definition get_broker_endpoints_list : result (list string) :=
  match get_broker_endpoints with
  | Ok endpoints =>
      match Py.str_split endpoints "," with
      | Some l => Ok l
      | None => Raise (Exn ValueError [VStr "empty separator"])
      end
  | Raise e => Raise e
  end.

Definition get_kafka_default_config : result (gmap string string) :=
  let default_config : gmap string string := ∅ in
  match get_broker_endpoints with
  | Raise e => Raise e
  | Ok endpoints =>
      let default_config :=
        <[KAFKA_PRODUCER_CONFIG.BOOTSTRAP_SERVERS_CONFIG := endpoints]> default_config in
      let default_config :=
        <[KAFKA_PRODUCER_CONFIG.KEY_SERIALIZER_CLASS_CONFIG :=
            "org.apache.kafka.common.serialization.StringSerializer"]> default_config in
      let default_config :=
        <[KAFKA_PRODUCER_CONFIG.VALUE_SERIALIZER_CLASS_CONFIG :=
            "org.apache.kafka.common.serialization.ByteArraySerializer"]> default_config in
      let default_config :=
        <[KAFKA_SSL_CONFIG.SECURITY_PROTOCOL_CONFIG := "SSL"]> default_config in
      let default_config :=
        <[KAFKA_SSL_CONFIG.SSL_TRUSTSTORE_LOCATION_CONFIG := tls_get_trust_store W]> default_config in
      let default_config :=
        <[KAFKA_SSL_CONFIG.SSL_TRUSTSTORE_PASSWORD_CONFIG := tls_get_trust_store_pwd W]> default_config in
      let default_config :=
        <[KAFKA_SSL_CONFIG.SSL_KEYSTORE_LOCATION_CONFIG := tls_get_key_store W]> default_config in
      let default_config :=
        <[KAFKA_SSL_CONFIG.SSL_KEYSTORE_PASSWORD_CONFIG := tls_get_key_store_pwd W]> default_config in
      let default_config :=
        <[KAFKA_SSL_CONFIG.SSL_KEY_PASSWORD_CONFIG := tls_get_key_store_pwd W]> default_config in
      Ok default_config
  end.

(** [connection.request(...)], [connection.getresponse()] on a connection
    from [rest_api.get_http_connection(https=...)]. *)
Definition http_request (https : bool) (method url body : string)
    (headers : gmap string string) : M HttpResponse :=
  fun t =>
    let r := {| http_https := https; http_method := method; http_url := url;
                http_body := body; http_headers := headers |} in
    (Ok (http_getresponse W t r), t ++ [HttpSent r]).

Definition get_schema (topic : string) (version_id : value) : M value :=
  print "Getting schema for topic: {} schema version: {}" [VStr topic; version_id] ;;
  let json_contents := rest_prepare_rest_appservice_json_request W in
  let json_contents := <[REST_CONFIG.JSON_SCHEMA_TOPICNAME := VStr topic]> json_contents in
  let json_contents := <[REST_CONFIG.JSON_SCHEMA_VERSION := version_id]> json_contents in
  let json_embeddable := json_dumps W (VDict json_contents) in
  let headers : gmap string string := {[ "Content-type" := "application/json" ]} in
  let method := "POST" in
  let resource := "schema" in
  let resource_url :=
    REST_CONFIG.HOPSWORKS_REST_RESOURCE +:+ "/" +:+
    REST_CONFIG.HOPSWORKS_REST_APPSERVICE +:+ "/" +:+ resource in
  print "Sending REST request to Hopsworks: {}" [VStr resource_url] ;;
  response ← http_request true method resource_url json_embeddable headers;
  let resp_body := http_read response in
  response_object ← lift (json_loads W resp_body);
  ret response_object.

(** [get_schema(topic)]: [version_id] takes its default, 1. *)
Definition get_schema_default (topic : string) : M value :=
  get_schema topic (VInt 1).

End kafka.
End kafka.

(** ** Regular expressions, as far as [serving.py] uses them *)

Module re.

Inductive item :=
| Caret                                   (* ^ : at the start of the string *)
| Dollar                                  (* $ : at the end, or just before a newline that ends the string *)
| ClassPlus (ranges : list (ascii * ascii)). (* [x-y...]+ : one or more, greedy *)

Definition in_ranges (c : ascii) (ranges : list (ascii * ascii)) : bool :=
  existsb (fun r => (nat_of_ascii (fst r) <=? nat_of_ascii c)%nat &&
                    (nat_of_ascii c <=? nat_of_ascii (snd r))%nat) ranges.

Definition newline : ascii := ascii_of_nat 10.

Definition at_dollar (s : string) : bool :=
  String.eqb s "" || String.eqb s (String newline "").

(** One or more characters of the class, the longest run first, each
    followed by the rest of the pattern [k]. *)
Fixpoint plus_run (ranges : list (ascii * ascii)) (k : string -> bool) (s : string) : bool :=
  match s with
  | EmptyString => false
  | String c s' => in_ranges c ranges && (plus_run ranges k s' || k s')
  end.

Fixpoint match_from (items : list item) (at_start : bool) (s : string) : bool :=
  match items with
  | [] => true
  | Caret :: r => at_start && match_from r at_start s
  | Dollar :: r => at_dollar s && match_from r at_start s
  | ClassPlus ranges :: r => plus_run ranges (match_from r false) s
  end.

(** [pattern.match(s)] gives a match object, which is true in a condition,
    or [None]; the pattern is matched at the start of [s] only. *)
Definition match_ (pattern : list item) (s : string) : bool :=
  match_from pattern true s.

End re.

(** ** [hops/serving.py] *)

Module serving.

#[global] Instance result_ret : MRet result := @Ok.
#[global] Instance result_bind : MBind result := fun A B f r =>
  match r with Ok a => f a | Raise e => Raise e end.

(** A model being served. [name] and [id] have the types the backend gives
    them (a string and an integer), the other attributes are kept as they
    come. [kafka_topic_dto] is set only when the payload has the key. *)
Record Serving := {
  status : value;
  artifact_path : value;
  name : string;
  creator : value;
  model_server : value;
  serving_tool : value;
  model_version : value;
  created : value;
  requested_instances : value;
  kafka_topic_dto : option value;
  id : Z
}.

(** [str(serving_id)] for the result of [get_id]. *)
Definition str_id (serving_id : option Z) : string :=
  match serving_id with
  | None => "None"
  | Some n => pretty n
  end.

Definition value_of_id (serving_id : option Z) : value :=
  match serving_id with
  | None => VNone
  | Some n => VInt n
  end.

(** What [for x in v] goes through. *)
Definition iterate (v : value) : result (list value) :=
  match v with
  | VList l => Ok l
  | VDict d => Ok ((fun kv => VStr (fst kv)) <$> map_to_list d)
  | VStr s => Ok ((fun c => VStr (String c "")) <$> list_ascii_of_string s)
  | _ => Raise (Exn TypeError [v])
  end.

Fixpoint mapM {A B} (f : A -> result B) (l : list A) : result (list B) :=
  match l with
  | [] => Ok []
  | a :: l' => b ← f a; bs ← mapM f l'; Ok (b :: bs)
  end.

(** The local state of [_find_serving_with_name]: the list it was given
    and the list of names it builds. *)
Record frame := {
  fr_servings : list Serving;
  fr_serving_names : list string
}.

(** The character class [[a-zA-Z0-9]]. *)
Definition name_ranges : list (ascii * ascii) :=
  [("a", "z"); ("A", "Z"); ("0", "9")]%char.

(** [re.compile("^[a-zA-Z0-9]+$")]. *)
Definition name_pattern : list re.item :=
  [re.Caret; re.ClassPlus name_ranges; re.Dollar].

Section serving.
Context (K : ServingConstants) (W : World).

Definition send_request (method resource_url : string) (data : option string)
    (headers : option (gmap string string)) : M Response :=
  fun t =>
    let r := {| req_method := method; req_url := resource_url;
                req_data := data; req_headers := headers |} in
    (Ok (util_send_request W t r), t ++ [Sent r]).

Definition serving_resource_url : string :=
  SLASH_DELIMITER K +:+
  constants.REST_CONFIG.HOPSWORKS_REST_RESOURCE +:+ SLASH_DELIMITER K +:+
  HOPSWORKS_PROJECT_RESOURCE K +:+ SLASH_DELIMITER K +:+
  hdfs_project_id W +:+ SLASH_DELIMITER K +:+
  HOPSWORKS_SERVING_RESOURCE K +:+ SLASH_DELIMITER K.

Definition _delete_serving_rest (serving_id : option Z) : M unit :=
  let method := HTTP_DELETE K in
  let resource_url := serving_resource_url +:+ str_id serving_id in
  response ← send_request method resource_url None None;
  if negb (status_code response =? 200) then
    response_object ← lift (json response);
    let '(error_code, error_msg, user_msg) := util_parse_rest_error W response_object in
    raise (Exn RestAPIError
             [value_of_id serving_id; VStr resource_url; VInt (status_code response);
              VStr (reason response); error_code; error_msg; user_msg])
  else ret tt.

Definition _start_or_stop_serving_rest (serving_id : option Z) (action : string) : M unit :=
  let method := HTTP_POST K in
  let resource_url :=
    serving_resource_url +:+ str_id serving_id +:+
    SERVING_START_OR_STOP_PATH_PARAM K +:+ action in
  response ← send_request method resource_url None None;
  if negb (status_code response =? 200) then
    response_object ← lift (json response);
    let '(error_code, error_msg, user_msg) := util_parse_rest_error W response_object in
    raise (Exn RestAPIError
             [VStr action; value_of_id serving_id; VStr resource_url;
              VInt (status_code response); VStr (reason response);
              error_code; error_msg; user_msg])
  else ret tt.

Definition check (failed : bool) (args : list value) : result unit :=
  if failed then Raise (Exn ValueError args) else Ok tt.

Definition _validate_user_serving_input (serving_name model_path : string)
    (model_version : value) (model_server : string) (kfserving : bool)
    (batching_enabled topic_name num_partitions num_replicas instances : value)
    : result unit :=
  check ((256 <? String.length serving_name)%nat || String.eqb serving_name ""
         || negb (re.match_ name_pattern serving_name))
        [VStr serving_name] ;;
  check (negb (hdfs_exists W model_path)) [VStr model_path] ;;
  check (negb (existsb (String.eqb model_server) (MODEL_SERVERS K)))
        [VStr model_server; VStr (Py.str_join "," (MODEL_SERVERS K))] ;;
  check (negb (isinstance_int model_version)) [model_version] ;;
  (if String.eqb model_server (MODEL_SERVER_TENSORFLOW_SERVING K) then
     check (negb (isinstance_int num_replicas)) [model_version] ;;
     check (negb (isinstance_int num_partitions)) [num_partitions] ;;
     check (negb (isinstance_bool batching_enabled)) [batching_enabled] ;;
     check (kfserving && truthy batching_enabled) []
   else Ok tt) ;;
  check (kfserving && String.eqb model_server (MODEL_SERVER_FLASK K)) [] ;;
  check (negb (isinstance_int instances)) [instances].

Definition _create_or_update_serving_rest (serving_name model_path : string)
    (model_version : value) (model_server : string) (kfserving : bool)
    (batching_enabled topic_name num_partitions num_replicas : value)
    (serving_id : option Z) (instances : value) : M unit :=
  let serving_tool :=
    if kfserving then SERVING_TOOL_KFSERVING K else SERVING_TOOL_DEFAULT K in
  let kafka_topic_dto : gmap string value :=
    <[JSON_KAFKA_NUM_REPLICAS K := num_replicas]>
      (<[JSON_KAFKA_NUM_PARTITIONS K := num_partitions]>
         (<[JSON_KAFKA_TOPIC_NAME K := topic_name]> ∅)) in
  let json_contents : gmap string value :=
    <[JSON_SERVING_REQUESTED_INSTANCES K := instances]>
      (<[JSON_SERVING_KAFKA_TOPIC_DTO K := VDict kafka_topic_dto]>
         (<[JSON_SERVING_NAME K := VStr serving_name]>
            (<[JSON_SERVING_TOOL K := VStr serving_tool]>
               (<[JSON_MODEL_SERVER K := VStr model_server]>
                  (<[JSON_SERVING_ARTIFACT_PATH K := VStr model_path]>
                     (<[JSON_SERVING_MODEL_VERSION K := model_version]> ∅)))))) in
  let json_contents :=
    match serving_id with
    | Some n => <[JSON_SERVING_ID K := VInt n]> json_contents
    | None => json_contents
    end in
  let json_contents :=
    if String.eqb model_server (MODEL_SERVER_TENSORFLOW_SERVING K)
    then <[JSON_SERVING_BATCHING_ENABLED K := batching_enabled]> json_contents
    else json_contents in
  let json_embeddable := json_dumps W (VDict json_contents) in
  let headers : gmap string string :=
    {[ HTTP_CONTENT_TYPE K := HTTP_APPLICATION_JSON K ]} in
  let method := HTTP_PUT K in
  let resource_url := serving_resource_url in
  response ← send_request method resource_url (Some json_embeddable) (Some headers);
  if negb (status_code response =? 201) && negb (status_code response =? 200) then
    response_object ← lift (json response);
    let '(error_code, error_msg, user_msg) := util_parse_rest_error W response_object in
    raise (Exn RestAPIError
             [VStr resource_url; VInt (status_code response); VStr (reason response);
              error_code; error_msg; user_msg])
  else ret tt.

Definition _detect_model_server (artifact_path : string) : M string :=
  let model_server := MODEL_SERVER_TENSORFLOW_SERVING K in
  let model_server :=
    if Py.endswith artifact_path ".py" then MODEL_SERVER_FLASK K else model_server in
  print "Inferring model server from artifact files: {}" [VStr model_server] ;;
  ret model_server.

(** [Serving.__init__]: the attributes are read from the payload in this
    order, and a missing key raises [KeyError]. A payload that is not a
    dictionary cannot be indexed by a string. The record holds the
    servings of a well-typed listing, whose names are strings and whose
    ids are integers ([listing.well_typed]); Python would store any
    other name or id as it is, the record cannot, and such a payload is
    outside what the embedding describes: it is given [TypeError], and
    every property that reads a listing is stated for well-typed
    listings. *)
Definition Serving_init (serving_json : value) : result Serving :=
  match serving_json with
  | VDict d =>
      status ← getitem d (JSON_SERVING_STATUS K);
      artifact_path ← getitem d (JSON_SERVING_ARTIFACT_PATH K);
      name ← getitem d (JSON_SERVING_NAME K);
      creator ← getitem d (JSON_SERVING_CREATOR K);
      creator ← getitem d (JSON_SERVING_CREATOR K);
      model_server ← getitem d (JSON_MODEL_SERVER K);
      serving_tool ← getitem d (JSON_SERVING_TOOL K);
      model_version ← getitem d (JSON_SERVING_MODEL_VERSION K);
      created ← getitem d (JSON_SERVING_CREATED K);
      requested_instances ← getitem d (JSON_SERVING_REQUESTED_INSTANCES K);
      let kafka_topic_dto := KafkaTopicDTO W <$> (d !! JSON_SERVING_KAFKA_TOPIC_DTO K) in
      id ← getitem d (JSON_SERVING_ID K);
      match name, id with
      | VStr name, VInt id =>
          Ok {| status := status; artifact_path := artifact_path; name := name;
                creator := creator; model_server := model_server;
                serving_tool := serving_tool; model_version := model_version;
                created := created; requested_instances := requested_instances;
                kafka_topic_dto := kafka_topic_dto; id := id |}
      | _, _ => Raise (Exn TypeError [name; id])
      end
  | _ => Raise (Exn TypeError [serving_json])
  end.

(** The loop of [_find_serving_with_name] over the servings still to be
    visited. *)
Fixpoint find_loop (serving_name : string) (rest : list Serving) (fr : frame)
    : result Serving * frame :=
  match rest with
  | [] =>
      let serving_names_str := Py.str_join "," (fr_serving_names fr) in
      (Raise (Exn ServingNotFound [VStr serving_name; VStr serving_names_str]), fr)
  | serving :: rest' =>
      if String.eqb (name serving) serving_name then (Ok serving, fr)
      else find_loop serving_name rest'
             {| fr_servings := fr_servings fr;
                fr_serving_names := fr_serving_names fr ++ [name serving] |}
  end.

(** [_find_serving_with_name] with the state it leaves behind. *)
Definition _find_serving_with_name_run (serving_name : string) (servings : list Serving)
    : result Serving * frame :=
  find_loop serving_name servings {| fr_servings := servings; fr_serving_names := [] |}.

Definition _find_serving_with_name (serving_name : string) (servings : list Serving)
    : result Serving :=
  fst (_find_serving_with_name_run serving_name servings).

Definition _parse_json_servings (json_servings : value) : result (list Serving) :=
  items ← iterate json_servings;
  mapM Serving_init items.

Definition _get_servings_rest : M value :=
  let method := HTTP_GET K in
  let resource_url := serving_resource_url in
  response ← send_request method resource_url None None;
  response_object ← lift (json response);
  if negb (status_code response =? 200) then
    let '(error_code, error_msg, user_msg) := util_parse_rest_error W response_object in
    raise (Exn RestAPIError
             [VStr resource_url; VInt (status_code response); VStr (reason response);
              error_code; error_msg; user_msg])
  else ret response_object.

Definition get_all : M (list Serving) :=
  json_servings ← _get_servings_rest;
  lift (_parse_json_servings json_servings).

Definition get_id (serving_name : string) : M (option Z) :=
  try_except
    (servings ← get_all;
     serving ← lift (_find_serving_with_name serving_name servings);
     ret (Some (id serving)))
    ServingNotFound
    (fun _ => ret None).

(** [exists] ([exists] is a reserved word here). *)
Definition exists_ (serving_name : string) : M bool :=
  try_except
    (serving_id ← get_id serving_name;
     ret (bool_decide (serving_id ≠ None)))
    ServingNotFound
    (fun e =>
       print "No serving with name {} was found in the project {}"
             [VStr serving_name; VStr (hdfs_project_name W)] ;;
       ret false).

Definition delete (serving_name : string) : M unit :=
  serving_id ← get_id serving_name;
  print "Deleting serving with name: {}..." [VStr serving_name] ;;
  _delete_serving_rest serving_id ;;
  print "Serving with name: {} successfully deleted" [VStr serving_name].

Definition start (serving_name : string) : M unit :=
  serving_id ← get_id serving_name;
  print "Starting serving with name: {}..." [VStr serving_name] ;;
  _start_or_stop_serving_rest serving_id (SERVING_ACTION_START K) ;;
  print "Serving with name: {} successfully started" [VStr serving_name].

Definition stop (serving_name : string) : M unit :=
  serving_id ← get_id serving_name;
  print "Stopping serving with name: {}..." [VStr serving_name] ;;
  _start_or_stop_serving_rest serving_id (SERVING_ACTION_STOP K) ;;
  print "Serving with name: {} successfully stopped" [VStr serving_name].

Definition create_or_update (serving_name artifact_path : string)
    (model_version : value) (model_server : option string) (kfserving : bool)
    (batching_enabled topic_name num_partitions num_replicas instances : value)
    : M unit :=
  serving_id ← get_id serving_name;
  let artifact_path := hdfs_expand_path W artifact_path in
  model_server ←
    match model_server with
    | None => _detect_model_server artifact_path
    | Some model_server => ret model_server
    end;
  lift (_validate_user_serving_input serving_name artifact_path model_version
          model_server kfserving batching_enabled topic_name num_partitions
          num_replicas instances) ;;
  let artifact_path := hdfs_get_plain_path W artifact_path in
  print "Creating serving {} for artifact {} ..." [VStr serving_name; VStr artifact_path] ;;
  _create_or_update_serving_rest serving_name artifact_path model_version model_server
    kfserving batching_enabled topic_name num_partitions num_replicas serving_id
    instances ;;
  print "Serving {} successfully created" [VStr serving_name].

Definition _make_inference_request_rest (serving_name : string) (data : value)
    (verb : string) : M value :=
  let json_embeddable := json_dumps W data in
  let headers : gmap string string :=
    {[ HTTP_CONTENT_TYPE K := HTTP_APPLICATION_JSON K ]} in
  let method := HTTP_POST K in
  let resource_url :=
    SLASH_DELIMITER K +:+
    constants.REST_CONFIG.HOPSWORKS_REST_RESOURCE +:+ SLASH_DELIMITER K +:+
    HOPSWORKS_PROJECT_RESOURCE K +:+ SLASH_DELIMITER K +:+
    hdfs_project_id W +:+ SLASH_DELIMITER K +:+
    HOPSWORKS_INFERENCE_RESOURCE K +:+ SLASH_DELIMITER K +:+
    HOPSWORKS_MODELS_RESOURCE K +:+ SLASH_DELIMITER K +:+
    serving_name +:+ verb in
  response ← send_request method resource_url (Some json_embeddable) (Some headers);
  response_object ← lift (json response);
  let '(error_code, error_msg, user_msg) := util_parse_rest_error W response_object in
  if negb (status_code response =? 201) && negb (status_code response =? 200) then
    raise (Exn RestAPIError
             [VStr resource_url; VInt (status_code response); VStr (reason response);
              error_code; error_msg; user_msg])
  else ret response_object.

Definition make_inference_request (serving_name : string) (data : value)
    (verb : string) : M value :=
  _make_inference_request_rest serving_name data verb.

(** *** The accessors of a serving *)

Definition get_artifact_path (serving_name : string) : M value :=
  servings ← get_all;
  serving ← lift (_find_serving_with_name serving_name servings);
  ret (artifact_path serving).

Definition get_model_server (serving_name : string) : M value :=
  servings ← get_all;
  serving ← lift (_find_serving_with_name serving_name servings);
  ret (model_server serving).

Definition get_serving_tool (serving_name : string) : M value :=
  servings ← get_all;
  serving ← lift (_find_serving_with_name serving_name servings);
  ret (serving_tool serving).

Definition get_version (serving_name : string) : M value :=
  servings ← get_all;
  serving ← lift (_find_serving_with_name serving_name servings);
  ret (model_version serving).

Definition get_status (serving_name : string) : M value :=
  servings ← get_all;
  serving ← lift (_find_serving_with_name serving_name servings);
  ret (status serving).

(** *** Notions used to state the properties *)

(** The request with which [_get_servings_rest] asks for the servings. *)
Definition servings_request : Request :=
  {| req_method := HTTP_GET K; req_url := serving_resource_url;
     req_data := None; req_headers := None |}.

(** [run] is the run, from the trace [t], of a helper that sends one
    request and returns nothing: it returns exactly when the status code
    of the response is [accepted]; otherwise it raises [RestAPIError] when
    the body of the response is JSON, and what [response.json()] raises
    when it is not. *)
Definition checks_status (accepted : Z -> bool) (t : list event)
    (run : result unit * list event) : Prop :=
  exists r : Request,
    snd run = t ++ [Sent r] /\
    let response := util_send_request W t r in
    (fst run = Ok tt <-> accepted (status_code response) = true) /\
    (accepted (status_code response) = false ->
     match json response with
     | Ok _ => raised (fst run) = Some RestAPIError
     | Raise e => fst run = Raise e
     end).

(** The same for a helper that decodes the body first and returns it. *)
Definition decodes_then_checks_status (accepted : Z -> bool) (t : list event)
    (run : result value * list event) : Prop :=
  exists r : Request,
    snd run = t ++ [Sent r] /\
    let response := util_send_request W t r in
    match json response with
    | Ok response_object =>
        (accepted (status_code response) = true -> fst run = Ok response_object) /\
        (accepted (status_code response) = false ->
         raised (fst run) = Some RestAPIError)
    | Raise e => fst run = Raise e
    end.

End serving.

(** [s] has a character outside [[a-zA-Z0-9]] that is not a newline in
    the last position. *)
Definition has_foreign_char (s : string) : Prop :=
  exists (a : string) (c : ascii) (b : string),
    s = a +:+ String c b /\
    re.in_ranges c name_ranges = false /\
    ~ (c = re.newline /\ b = "").

(** The inputs of [create_or_update] that validation is to refuse. *)
Definition refused (serving_name : string) (model_version instances : value) : Prop :=
  serving_name = "" \/
  (256 < String.length serving_name)%nat \/
  has_foreign_char serving_name \/
  isinstance_int model_version = false \/
  isinstance_int instances = false.

End serving.

(** ** Listings of servings *)

Module listing.

Section listing.
Context (K : ServingConstants) (W : World).

(** The name of a serving in its payload, when it is a string. *)
Definition payload_name (d : gmap string value) : option string :=
  match d !! JSON_SERVING_NAME K with
  | Some (VStr n) => Some n
  | _ => None
  end.

(** The id of a serving in its payload, when it is an integer. *)
Definition payload_id (d : gmap string value) : option Z :=
  match d !! JSON_SERVING_ID K with
  | Some (VInt n) => Some n
  | _ => None
  end.

(** The payload is the one of a serving with the given name. *)
Definition has_name (serving_name : string) (d : gmap string value) : bool :=
  match payload_name d with
  | Some n => String.eqb n serving_name
  | None => false
  end.

Definition present (d : gmap string value) (k : string) : bool :=
  match d !! k with Some _ => true | None => false end.

(** A payload as the backend gives it: the ten keys that [Serving.__init__]
    reads are there, the name is a string and the id an integer. *)
Definition well_typed (d : gmap string value) : bool :=
  match payload_name d, payload_id d with
  | Some _, Some _ =>
      forallb (present d)
        [JSON_SERVING_STATUS K; JSON_SERVING_ARTIFACT_PATH K; JSON_SERVING_CREATOR K;
         JSON_MODEL_SERVER K; JSON_SERVING_TOOL K; JSON_SERVING_MODEL_VERSION K;
         JSON_SERVING_CREATED K; JSON_SERVING_REQUESTED_INSTANCES K]
  | _, _ => false
  end.

(** The serving [s] is the one [Serving.__init__] builds from the
    payload [d]. *)
Definition built (d : gmap string value) (s : serving.Serving) : Prop :=
  serving.Serving_init K W (VDict d) = Ok s /\
  payload_name d = Some (serving.name s) /\
  payload_id d = Some (serving.id s).

End listing.
End listing.

(** ** The feature-store query planner *)

Module query_planner.

(** Modelled from the spec: the data access objects
    [hops/featurestore_impl/dao/feature.py] and [featuregroup.py] are not
    at hand; the tests read [name], [version] and [features] of a feature
    group and [name] of a feature. *)
Record Feature := { feature_name : string }.

Record Featuregroup := {
  name : string;
  version : Z;
  features : list Feature
}.

(** Modelled from the spec: [fs_utils._get_table_name] is not at hand; the
    Hive table of a feature group is its name, an underscore and its
    version ([_get_table_name("test_fg", 1) == "test_fg_1"]). *)
Definition _get_table_name (featuregroup : string) (version : Z) : string :=
  featuregroup +:+ "_" +:+ pretty version.

Definition table_of (fg : Featuregroup) : string :=
  _get_table_name (name fg) (version fg).

(** The join of one feature group: [JOIN <name>_<version>]. *)
Definition join_clause (fg : Featuregroup) : string :=
  "JOIN " +:+ table_of fg.

(** The condition that joins [fg] to [first] on [join_key]. *)
Definition join_condition (first : Featuregroup) (join_key : string) (fg : Featuregroup)
    : string :=
  table_of first +:+ ".`" +:+ join_key +:+ "`=" +:+ table_of fg +:+ ".`" +:+ join_key +:+ "`".

(** Modelled from the spec: [query_planner._get_join_str] is not at hand.
    The join string is the concatenation of a [JOIN] for every feature
    group but the first, of [ ON ], and of one condition per remaining
    feature group, the conditions separated by [ AND ]. *)
Definition _get_join_str (featuregroups : list Featuregroup) (join_key : string) : string :=
  match featuregroups with
  | [] => " ON "
  | first :: others =>
      Py.str_join " " (join_clause <$> others) +:+ " ON " +:+
      Py.str_join " AND " (join_condition first join_key <$> others)
  end.

(** [any(f.name == feature for f in fg.features)]. *)
Definition contains_feature (feature : string) (fg : Featuregroup) : bool :=
  existsb (fun f => String.eqb (feature_name f) feature) (features fg).

(** Modelled from the spec: [query_planner._find_featuregroup_that_contains_feature]
    is not at hand. A linear search: the feature groups are visited in
    order and those with a feature of the given name are appended to the
    matches. *)
Fixpoint find_matches (feature : string) (featuregroups matches : list Featuregroup)
    : list Featuregroup :=
  match featuregroups with
  | [] => matches
  | fg :: rest =>
      if contains_feature feature fg
      then find_matches feature rest (matches ++ [fg])
      else find_matches feature rest matches
  end.

Definition _find_featuregroup_that_contains_feature
    (featuregroups : list Featuregroup) (feature : string) : list Featuregroup :=
  find_matches feature featuregroups [].

(** Modelled from the spec: [query_planner._find_feature] is not at hand.
    It returns the only feature group with the feature, and raises
    [FeatureNotFound] when there is none and [FeatureNameCollisionError]
    when there are several. *)
Definition _find_feature (feature featurestore : string)
    (featuregroups : list Featuregroup) : result Featuregroup :=
  match _find_featuregroup_that_contains_feature featuregroups feature with
  | [] => Raise (Exn FeatureNotFound [VStr feature; VStr featurestore])
  | [fg] => Ok fg
  | _ :: _ :: _ => Raise (Exn FeatureNameCollisionError [VStr feature; VStr featurestore])
  end.

(** The feature groups of [test_get_join_str], sorted by name. *)
Definition mk_fg (n : string) (fs : list string) : Featuregroup :=
  {| name := n; version := 1; features := Build_Feature <$> fs |}.

Definition attendances_features := mk_fg "attendances_features" ["team_id"; "average_attendance"].
Definition players_features := mk_fg "players_features" ["team_id"; "average_player_worth"].
Definition season_scores_features := mk_fg "season_scores_features" ["team_id"; "average_position"].
Definition teams_features := mk_fg "teams_features" ["team_id"; "team_budget"; "team_position"].
Definition games_features := mk_fg "games_features" ["home_team_id"; "away_team_id"; "score"].

End query_planner.

(** ** Concrete surroundings for the examples

    The properties below hold for every value of the constants and for
    every world; the examples are run with these. *)

Module sample.

Definition K : ServingConstants := {|
  HTTP_GET := "GET";
  HTTP_PUT := "PUT";
  HTTP_POST := "POST";
  HTTP_DELETE := "DELETE";
  HTTP_CONTENT_TYPE := "Content-type";
  HTTP_APPLICATION_JSON := "application/json";
  SLASH_DELIMITER := "/";
  HOPSWORKS_PROJECT_RESOURCE := "project";
  HOPSWORKS_SERVING_RESOURCE := "serving";
  HOPSWORKS_INFERENCE_RESOURCE := "inference";
  HOPSWORKS_MODELS_RESOURCE := "models";
  JSON_SERVING_MODEL_VERSION := "modelVersion";
  JSON_SERVING_ARTIFACT_PATH := "artifactPath";
  JSON_MODEL_SERVER := "modelServer";
  JSON_SERVING_TOOL := "servingTool";
  JSON_SERVING_NAME := "name";
  JSON_SERVING_KAFKA_TOPIC_DTO := "kafkaTopicDTO";
  JSON_KAFKA_TOPIC_NAME := "name";
  JSON_KAFKA_NUM_PARTITIONS := "numOfPartitions";
  JSON_KAFKA_NUM_REPLICAS := "numOfReplicas";
  JSON_SERVING_REQUESTED_INSTANCES := "requestedInstances";
  JSON_SERVING_ID := "id";
  JSON_SERVING_BATCHING_ENABLED := "batchingEnabled";
  JSON_SERVING_STATUS := "status";
  JSON_SERVING_CREATOR := "creator";
  JSON_SERVING_CREATED := "created";
  SERVING_ACTION_START := "START";
  SERVING_ACTION_STOP := "STOP";
  SERVING_START_OR_STOP_PATH_PARAM := "?action=";
  MODEL_SERVER_TENSORFLOW_SERVING := "TENSORFLOW_SERVING";
  MODEL_SERVER_FLASK := "FLASK";
  MODEL_SERVERS := ["TENSORFLOW_SERVING"; "FLASK"];
  SERVING_TOOL_DEFAULT := "DEFAULT";
  SERVING_TOOL_KFSERVING := "KFSERVING"
|}.

(** A decoder for the three JSON texts the examples use. *)
Definition loads (body : string) : result value :=
  if String.eqb body "{}" then Ok (VDict ∅)
  else if String.eqb body "[]" then Ok (VList [])
  else if String.eqb body "null" then Ok VNone
  else Raise (Exn ValueError [VStr body]).

Definition parse_rest_error (response_dict : value) : value * value * value :=
  match response_dict with
  | VDict d =>
      (default (VInt (-1)) (d !! "errorCode"),
       default (VStr "") (d !! "errorMsg"),
       default (VStr "") (d !! "usrMsg"))
  | _ => (VInt (-1), VStr "", VStr "")
  end.

(** A world around a given environment, backend and HTTP server. *)
Definition world (environ : gmap string string)
    (backend : list event -> Request -> Response)
    (server : list event -> HttpRequest -> HttpResponse) : World := {|
  os_environ := environ;
  tls_get_trust_store := "t_certificate";
  tls_get_trust_store_pwd := "secret";
  tls_get_key_store := "k_certificate";
  tls_get_key_store_pwd := "secret";
  rest_prepare_rest_appservice_json_request :=
    {[ "keyStorePwd" := VStr "secret"; "keyStore" := VStr "a2V5" ]};
  http_getresponse := server;
  json_dumps := fun _ => "{...}";
  json_loads := loads;
  util_send_request := backend;
  util_parse_rest_error := parse_rest_error;
  hdfs_project_id := "119";
  hdfs_project_name := "demo";
  hdfs_expand_path := fun p => p;
  hdfs_get_plain_path := fun p => p;
  hdfs_exists := fun _ => true;
  KafkaTopicDTO := fun v => v
|}.

Definition ok_response (body : value) : Response :=
  {| status_code := 200; reason := "OK"; json := Ok body |}.

(** A gateway error whose body is an HTML page, not JSON. *)
Definition bad_gateway : Response :=
  {| status_code := 502; reason := "Bad Gateway";
     json := Raise (Exn ValueError [VStr "<html>502 Bad Gateway</html>"]) |}.

(** An error of the backend with a JSON body. *)
Definition server_error : Response :=
  {| status_code := 500; reason := "Internal Server Error"; json := Ok (VDict ∅) |}.

(** A backend with no servings that accepts every other request. *)
Definition empty_backend (t : list event) (r : Request) : Response :=
  if String.eqb (req_method r) "GET" then ok_response (VList [])
  else ok_response (VDict ∅).

Definition no_server (t : list event) (r : HttpRequest) : HttpResponse :=
  {| http_status := 200; http_read := "{}" |}.

(** A server that does not know the schema asked for. *)
Definition not_found_server (t : list event) (r : HttpRequest) : HttpResponse :=
  {| http_status := 404; http_read := "{}" |}.

Definition brokers : gmap string string :=
  {[ "KAFKA_BROKERS" := "INTERNAL://10.0.2.15:9091,INTERNAL://10.0.2.16:9091" ]}.

Definition mnist : serving.Serving := {|
  serving.status := VStr "Running";
  serving.artifact_path := VStr "/Projects/demo/Models/mnist";
  serving.name := "mnist";
  serving.creator := VStr "admin";
  serving.model_server := VStr "TENSORFLOW_SERVING";
  serving.serving_tool := VStr "DEFAULT";
  serving.model_version := VInt 1;
  serving.created := VStr "2020";
  serving.requested_instances := VInt 1;
  serving.kafka_topic_dto := None;
  serving.id := 7
|}.

Definition iris : serving.Serving := {|
  serving.status := VStr "Stopped";
  serving.artifact_path := VStr "/Projects/demo/Models/iris.py";
  serving.name := "iris";
  serving.creator := VStr "admin";
  serving.model_server := VStr "FLASK";
  serving.serving_tool := VStr "DEFAULT";
  serving.model_version := VInt 2;
  serving.created := VStr "2020";
  serving.requested_instances := VInt 1;
  serving.kafka_topic_dto := None;
  serving.id := 8
|}.

End sample.

(** ** A backend with two servings, for the examples *)

Module sample_backend.

(** The payload of a serving, as [Serving.__init__] reads it with the
    keys of [sample.K]. *)
Definition payload (s : serving.Serving) : value :=
  VDict (list_to_map
    [("status", serving.status s);
     ("artifactPath", serving.artifact_path s);
     ("name", VStr (serving.name s));
     ("creator", serving.creator s);
     ("modelServer", serving.model_server s);
     ("servingTool", serving.serving_tool s);
     ("modelVersion", serving.model_version s);
     ("created", serving.created s);
     ("requestedInstances", serving.requested_instances s);
     ("id", VInt (serving.id s))]).

(** The backend lists [mnist] and [iris] and accepts every other
    request. *)
Definition two_servings (t : list event) (r : Request) : Response :=
  if String.eqb (req_method r) "GET"
  then sample.ok_response (VList [payload sample.mnist; payload sample.iris])
  else sample.ok_response (VDict ∅).

Definition W : World := sample.world ∅ two_servings sample.no_server.

(** The backend fails on every request, with a JSON body. *)
Definition W_failing : World :=
  sample.world ∅ (fun _ _ => sample.server_error) sample.no_server.

(** The backend has no serving. *)
Definition W_empty : World :=
  sample.world ∅ sample.empty_backend sample.no_server.

End sample_backend.

(** ** A listing with a Kafka topic, for the examples *)

Module sample_listing.

(** The payload of [mnist] with the topic of its inference logs. *)
Definition mnist_with_topic : gmap string value :=
  list_to_map
    [("status", VStr "Running");
     ("artifactPath", VStr "/Projects/demo/Models/mnist");
     ("name", VStr "mnist");
     ("creator", VStr "admin");
     ("modelServer", VStr "TENSORFLOW_SERVING");
     ("servingTool", VStr "DEFAULT");
     ("modelVersion", VInt 1);
     ("created", VStr "2020");
     ("requestedInstances", VInt 1);
     ("kafkaTopicDTO", VDict {[ "name" := VStr "mnist-inf" ]});
     ("id", VInt 7)].

(** The payload of [iris], without a topic. *)
Definition iris : gmap string value :=
  list_to_map
    [("status", VStr "Stopped");
     ("artifactPath", VStr "/Projects/demo/Models/iris.py");
     ("name", VStr "iris");
     ("creator", VStr "admin");
     ("modelServer", VStr "FLASK");
     ("servingTool", VStr "DEFAULT");
     ("modelVersion", VInt 2);
     ("created", VStr "2020");
     ("requestedInstances", VInt 1);
     ("id", VInt 8)].

Definition servings : list (gmap string value) := [mnist_with_topic; iris].

Definition backend (t : list event) (r : Request) : Response :=
  if String.eqb (req_method r) "GET"
  then sample.ok_response (VList (VDict <$> servings))
  else sample.ok_response (VDict ∅).

Definition W : World := sample.world ∅ backend sample.no_server.

End sample_listing.

(** * Properties *)

(** ** Strings *)

Section Strings.

Lemma append_cons (c : ascii) (a b : string) : String c a +:+ b = String c (a +:+ b).
Proof. reflexivity. Qed.

Lemma append_empty_l (s : string) : "" +:+ s = s.
Proof. reflexivity. Qed.

Lemma append_empty_r (s : string) : s +:+ "" = s.
Proof.
  induction s as [|c s IH]; [reflexivity |].
  now rewrite append_cons, IH.
Qed.

Lemma append_assoc (a b c : string) : (a +:+ b) +:+ c = a +:+ (b +:+ c).
Proof.
  induction a as [|x a IH]; [reflexivity |].
  now rewrite !append_cons, IH.
Qed.

Lemma length_append (a b : string) :
  String.length (a +:+ b) = (String.length a + String.length b)%nat.
Proof.
  induction a as [|x a IH]; [reflexivity |].
  rewrite append_cons. simpl. now rewrite IH.
Qed.

Lemma startswith_split (s p : string) :
  Py.startswith s p = true -> exists r, s = p +:+ r.
Proof.
  unfold Py.startswith. revert s.
  induction p as [|c p IH]; intros s H.
  - now exists s.
  - destruct s as [|d s]; [discriminate |].
    simpl in H.
    destruct (ascii_dec c d) as [->|]; [| discriminate].
    destruct (IH s H) as [r ->]. now exists r.
Qed.

Lemma split_from_skip (sep a b : string) :
  Py.split_from sep (String.length a) (a +:+ b) = Py.split_from sep 0 b.
Proof.
  induction a as [|x a IH]; [reflexivity |].
  rewrite append_cons. simpl. exact IH.
Qed.

Lemma split_from_nonempty (sep : string) (k : nat) (s : string) :
  Py.split_from sep k s <> [].
Proof.
  revert k. induction s as [|c s IH]; intros k; cbn [Py.split_from]; [discriminate |].
  destruct k as [|k]; [| apply IH].
  destruct (Py.startswith (String c s) sep); [discriminate |].
  destruct (Py.split_from sep 0 s); discriminate.
Qed.

Lemma join_cons_char (sep : string) (c : ascii) (p : string) (ps : list string) :
  Py.str_join sep (String c p :: ps) = String c (Py.str_join sep (p :: ps)).
Proof. unfold Py.str_join. destruct ps; reflexivity. Qed.

Lemma join_cons_empty (sep : string) (l : list string) :
  l <> [] -> Py.str_join sep ("" :: l) = sep +:+ Py.str_join sep l.
Proof. unfold Py.str_join. destruct l; [congruence | reflexivity]. Qed.

(** Joining the pieces of a split with the separator gives the string
    back. *)
Lemma join_split_from (sep : string) :
  sep <> "" -> forall s, Py.str_join sep (Py.split_from sep 0 s) = s.
Proof.
  intros Hsep s.
  remember (String.length s) as n eqn:Hn.
  revert s Hn. induction n as [n IH] using lt_wf_ind. intros s Hn.
  destruct s as [|c s]; [reflexivity |].
  cbn [Py.split_from].
  destruct (Py.startswith (String c s) sep) eqn:Hp.
  - destruct (startswith_split _ _ Hp) as [r Hr].
    destruct sep as [|c0 sep']; [congruence |].
    rewrite append_cons in Hr. injection Hr as -> ->.
    cbn [String.length Nat.pred]. rewrite split_from_skip.
    rewrite join_cons_empty by apply split_from_nonempty.
    rewrite (IH (String.length r)); [reflexivity | | reflexivity].
    subst n. simpl. rewrite length_append. lia.
  - pose proof (split_from_nonempty sep 0 s) as Hne.
    specialize (IH (String.length s)).
    destruct (Py.split_from sep 0 s) as [|p ps] eqn:Hs; [congruence |].
    rewrite join_cons_char, <- Hs.
    rewrite IH; [reflexivity | subst n; simpl; lia | reflexivity].
Qed.

End Strings.

(** [str.replace] scans from the left: a character that starts no match is
    kept, and a match is replaced as a whole. *)
Lemma replace_from_skip (old new a b : string) :
  Py.replace_from old new (String.length a) (a +:+ b) = Py.replace_from old new 0 b.
Proof.
  induction a as [|x a IH]; [reflexivity |].
  rewrite append_cons. simpl. exact IH.
Qed.

Lemma str_replace_empty (old new : string) :
  old <> "" -> Py.str_replace "" old new = "".
Proof. destruct old; [congruence | reflexivity]. Qed.

Lemma str_replace_keep (c : ascii) (s old new : string) :
  old <> "" -> Py.startswith (String c s) old = false ->
  Py.str_replace (String c s) old new = String c (Py.str_replace s old new).
Proof.
  intros Hold Hp. destruct old as [|o old]; [congruence |].
  unfold Py.str_replace. cbn [Py.replace_from]. now rewrite Hp.
Qed.

Lemma startswith_append (old s : string) : Py.startswith (old +:+ s) old = true.
Proof.
  unfold Py.startswith. induction old as [|c old IH]; [now destruct s |].
  rewrite append_cons. simpl. destruct (ascii_dec c c); [exact IH | congruence].
Qed.

Lemma str_replace_match (s old new : string) :
  old <> "" ->
  Py.str_replace (old +:+ s) old new = new +:+ Py.str_replace s old new.
Proof.
  intros Hold. destruct old as [|o old]; [congruence |].
  unfold Py.str_replace. rewrite append_cons.
  cbn [Py.replace_from].
  rewrite <- append_cons, startswith_append.
  cbn [String.length Nat.pred]. now rewrite replace_from_skip.
Qed.

Lemma append_eq_append (a x o r : string) :
  a +:+ x = o +:+ r ->
  (exists a', a = o +:+ a' /\ r = a' +:+ x) \/
  (exists p, o = a +:+ p /\ x = p +:+ r).
Proof.
  revert o. induction a as [|c a IH]; intros o H.
  - right. exists o. now rewrite !append_empty_l in *.
  - destruct o as [|d o].
    + left. exists (String c a). now rewrite !append_empty_l in *.
    + rewrite !append_cons in H. injection H as -> H.
      destruct (IH o H) as [(a' & -> & ->) | (p & -> & ->)].
      * left. now exists a'.
      * right. now exists p.
Qed.

(** No match of [INTERNAL://] begins inside another one: the letter [I]
    is only its first character. *)
Lemma internal_unbordered (a r : string) :
  "NTERNAL://" = a +:+ String "I" r -> False.
Proof.
  intros H.
  repeat (destruct a as [|? a];
          [rewrite ?append_empty_l in H; discriminate
          | rewrite append_cons in H; injection H as _ H]).
  destruct a; discriminate.
Qed.

(** So [replace("INTERNAL://", "")] takes out every occurrence of
    [INTERNAL://], wherever it stands in the string. *)
Lemma replace_internal_each_occurrence (a b : string) :
  Py.str_replace (a +:+ "INTERNAL://" +:+ b) "INTERNAL://" "" =
  Py.str_replace a "INTERNAL://" "" +:+ Py.str_replace b "INTERNAL://" "".
Proof.
  remember (String.length a) as n eqn:Hn.
  revert a Hn. induction n as [n IH] using lt_wf_ind. intros a Hn.
  destruct a as [|c a'].
  - rewrite append_empty_l, str_replace_match by discriminate. reflexivity.
  - destruct (Py.startswith (String c a' +:+ "INTERNAL://" +:+ b) "INTERNAL://") eqn:E.
    + destruct (startswith_split _ _ E) as [r Hr].
      apply append_eq_append in Hr as [(a'' & Ha & Hr) | (p & Ho & Hx)].
      * rewrite Ha, append_assoc, !str_replace_match by discriminate.
        rewrite !append_empty_l.
        apply (IH (String.length a'')); [| reflexivity].
        subst n. rewrite Ha, length_append. simpl. lia.
      * destruct p as [|d p].
        -- rewrite append_empty_r in Ho. rewrite <- Ho.
           rewrite !str_replace_match by discriminate.
           reflexivity.
        -- exfalso. rewrite !append_cons in Hx. injection Hx as <- _.
           rewrite append_cons in Ho. injection Ho as _ Ho.
           exact (internal_unbordered _ _ Ho).
    + assert (E' : Py.startswith (String c a') "INTERNAL://" = false).
      { destruct (Py.startswith (String c a') "INTERNAL://") eqn:E'; [| reflexivity].
        destruct (startswith_split _ _ E') as [r Hr].
        rewrite Hr, append_assoc, startswith_append in E. discriminate. }
      rewrite (append_cons c a') in *.
      rewrite !str_replace_keep by (discriminate || assumption).
      rewrite (append_cons c). f_equal.
      apply (IH (String.length a')); [subst n; simpl; lia | reflexivity].
Qed.

(** One pass only: what is left may spell the pattern again. *)
Example replace_internal_one_pass :
  Py.str_replace "INTERINTERNAL://NAL://broker:9091" "INTERNAL://" "" =
  "INTERNAL://broker:9091".
Proof. reflexivity. Qed.

(** ** [hops/kafka.py] *)

Section Kafka.
Import constants.
Context (W : World).

Lemma get_broker_endpoints_set (brokers : string) :
  os_environ W !! ENV_VARIABLES.KAFKA_BROKERS_ENV_VAR = Some brokers ->
  kafka.get_broker_endpoints W = Ok (Py.str_replace brokers "INTERNAL://" "").
Proof. intros H. unfold kafka.get_broker_endpoints, getitem. now rewrite H. Qed.

Lemma get_broker_endpoints_unset :
  os_environ W !! ENV_VARIABLES.KAFKA_BROKERS_ENV_VAR = None ->
  raised (kafka.get_broker_endpoints W) = Some KeyError.
Proof. intros H. unfold kafka.get_broker_endpoints, getitem. now rewrite H. Qed.

(** C8. Whatever the value of [KAFKA_BROKERS], joining the list of
    [get_broker_endpoints_list()] with [","] gives the string of
    [get_broker_endpoints()] back, and the list is not empty. *)
Theorem broker_endpoints_list_join (brokers : string) :
  os_environ W !! ENV_VARIABLES.KAFKA_BROKERS_ENV_VAR = Some brokers ->
  exists (endpoints : string) (l : list string),
    kafka.get_broker_endpoints W = Ok endpoints /\
    kafka.get_broker_endpoints_list W = Ok l /\
    Py.str_join "," l = endpoints /\
    l <> [].
Proof.
  intros H.
  exists (Py.str_replace brokers "INTERNAL://" "").
  exists (Py.split_from "," 0 (Py.str_replace brokers "INTERNAL://" "")).
  unfold kafka.get_broker_endpoints_list.
  rewrite (get_broker_endpoints_set _ H).
  repeat split.
  - now apply join_split_from.
  - apply split_from_nonempty.
Qed.

(** The nine keys of the default configuration. *)
Lemma default_config_keys (d : gmap string string) (v1 v2 v3 v4 v5 v6 v7 v8 v9 : string) :
  d = <[KAFKA_SSL_CONFIG.SSL_KEY_PASSWORD_CONFIG := v9]>
        (<[KAFKA_SSL_CONFIG.SSL_KEYSTORE_PASSWORD_CONFIG := v8]>
        (<[KAFKA_SSL_CONFIG.SSL_KEYSTORE_LOCATION_CONFIG := v7]>
        (<[KAFKA_SSL_CONFIG.SSL_TRUSTSTORE_PASSWORD_CONFIG := v6]>
        (<[KAFKA_SSL_CONFIG.SSL_TRUSTSTORE_LOCATION_CONFIG := v5]>
        (<[KAFKA_SSL_CONFIG.SECURITY_PROTOCOL_CONFIG := v4]>
        (<[KAFKA_PRODUCER_CONFIG.VALUE_SERIALIZER_CLASS_CONFIG := v3]>
        (<[KAFKA_PRODUCER_CONFIG.KEY_SERIALIZER_CLASS_CONFIG := v2]>
        (<[KAFKA_PRODUCER_CONFIG.BOOTSTRAP_SERVERS_CONFIG := v1]> ∅)))))))) ->
  dom d = {[ "bootstrap.servers"; "key.serializer"; "value.serializer";
             "security.protocol"; "ssl.truststore.location";
             "ssl.truststore.password"; "ssl.keystore.location";
             "ssl.keystore.password"; "ssl.key.password" ]} /\
  size d = 9%nat.
Proof.
  intros ->.
  assert (Hdom : forall m : gmap string string,
             m = <[KAFKA_SSL_CONFIG.SSL_KEY_PASSWORD_CONFIG := v9]>
        (<[KAFKA_SSL_CONFIG.SSL_KEYSTORE_PASSWORD_CONFIG := v8]>
        (<[KAFKA_SSL_CONFIG.SSL_KEYSTORE_LOCATION_CONFIG := v7]>
        (<[KAFKA_SSL_CONFIG.SSL_TRUSTSTORE_PASSWORD_CONFIG := v6]>
        (<[KAFKA_SSL_CONFIG.SSL_TRUSTSTORE_LOCATION_CONFIG := v5]>
        (<[KAFKA_SSL_CONFIG.SECURITY_PROTOCOL_CONFIG := v4]>
        (<[KAFKA_PRODUCER_CONFIG.VALUE_SERIALIZER_CLASS_CONFIG := v3]>
        (<[KAFKA_PRODUCER_CONFIG.KEY_SERIALIZER_CLASS_CONFIG := v2]>
        (<[KAFKA_PRODUCER_CONFIG.BOOTSTRAP_SERVERS_CONFIG := v1]> ∅)))))))) ->
             dom m = {[ "bootstrap.servers"; "key.serializer"; "value.serializer";
             "security.protocol"; "ssl.truststore.location";
             "ssl.truststore.password"; "ssl.keystore.location";
             "ssl.keystore.password"; "ssl.key.password" ]}).
  { intros m ->. rewrite !dom_insert_L, dom_empty_L.
    unfold KAFKA_SSL_CONFIG.SSL_KEY_PASSWORD_CONFIG,
      KAFKA_SSL_CONFIG.SSL_KEYSTORE_PASSWORD_CONFIG,
      KAFKA_SSL_CONFIG.SSL_KEYSTORE_LOCATION_CONFIG,
      KAFKA_SSL_CONFIG.SSL_TRUSTSTORE_PASSWORD_CONFIG,
      KAFKA_SSL_CONFIG.SSL_TRUSTSTORE_LOCATION_CONFIG,
      KAFKA_SSL_CONFIG.SECURITY_PROTOCOL_CONFIG,
      KAFKA_PRODUCER_CONFIG.VALUE_SERIALIZER_CLASS_CONFIG,
      KAFKA_PRODUCER_CONFIG.KEY_SERIALIZER_CLASS_CONFIG,
      KAFKA_PRODUCER_CONFIG.BOOTSTRAP_SERVERS_CONFIG.
    set_solver. }
  split; [now apply Hdom |].
  rewrite <- size_dom, (Hdom _ eq_refl).
  vm_compute. reflexivity.
Qed.

(** C7, as amended. When [KAFKA_BROKERS] is set, [get_kafka_default_config()]
    returns a dictionary with exactly nine entries: the bootstrap servers
    (the variable with the matches of ["INTERNAL://"] taken out by
    [str.replace]), the two serializer classes, the protocol [SSL], the
    location and password of the trust store and of the key store, and the
    key password, equal to the key store password. When the variable is
    not set, the function raises [KeyError]. *)
Theorem kafka_default_config_entries :
  (forall brokers : string,
   os_environ W !! "KAFKA_BROKERS" = Some brokers ->
   exists d : gmap string string,
    kafka.get_kafka_default_config W = Ok d /\
    size d = 9%nat /\
    d !! "bootstrap.servers" = Some (Py.str_replace brokers "INTERNAL://" "") /\
    d !! "key.serializer" =
      Some "org.apache.kafka.common.serialization.StringSerializer" /\
    d !! "value.serializer" =
      Some "org.apache.kafka.common.serialization.ByteArraySerializer" /\
    d !! "security.protocol" = Some "SSL" /\
    d !! "ssl.truststore.location" = Some (tls_get_trust_store W) /\
    d !! "ssl.truststore.password" = Some (tls_get_trust_store_pwd W) /\
    d !! "ssl.keystore.location" = Some (tls_get_key_store W) /\
    d !! "ssl.keystore.password" = Some (tls_get_key_store_pwd W) /\
    d !! "ssl.key.password" = Some (tls_get_key_store_pwd W)) /\
  (os_environ W !! "KAFKA_BROKERS" = None ->
   raised (kafka.get_kafka_default_config W) = Some KeyError).
Proof.
  split.
  - intros brokers H. unfold kafka.get_kafka_default_config.
    rewrite (get_broker_endpoints_set _ H).
    eexists. split; [reflexivity |].
    split; [eapply default_config_keys; reflexivity |].
    repeat split; by simplify_map_eq.
  - intros H. unfold kafka.get_kafka_default_config.
    pose proof (get_broker_endpoints_unset H) as Hraised.
    destruct (kafka.get_broker_endpoints W); [discriminate | exact Hraised].
Qed.

(** The computation of [get_schema], step by step. *)
Lemma get_schema_run (topic : string) (version_id : value) (t : list event) :
  let body :=
    <[REST_CONFIG.JSON_SCHEMA_VERSION := version_id]>
      (<[REST_CONFIG.JSON_SCHEMA_TOPICNAME := VStr topic]>
         (rest_prepare_rest_appservice_json_request W)) in
  let r := {| http_https := true; http_method := "POST";
              http_url := "hopsworks-api/api/appservice/schema";
              http_body := json_dumps W (VDict body);
              http_headers := {[ "Content-type" := "application/json" ]} |} in
  let t1 := t ++ [Print "Getting schema for topic: {} schema version: {}"
                    [VStr topic; version_id];
                  Print "Sending REST request to Hopsworks: {}"
                    [VStr "hopsworks-api/api/appservice/schema"]] in
  kafka.get_schema W topic version_id t =
    (json_loads W (http_read (http_getresponse W t1 r)), t1 ++ [HttpSent r]).
Proof.
  cbv zeta. unfold kafka.get_schema, kafka.http_request, print, lift, ret.
  unfold mbind, M_bind, bind, mret, M_ret, ret.
  rewrite <- app_assoc. cbn [app].
  destruct (json_loads W _); reflexivity.
Qed.

(** C6. [get_schema(topic, version_id)] issues exactly one request, an
    HTTPS [POST] to [hopsworks-api/api/appservice/schema] with content type
    [application/json] and a JSON body whose [topicName] is [topic] and
    whose [version] is [version_id], and returns the body of the response
    decoded as JSON; [version_id] is 1 by default. *)
Theorem get_schema_one_post (topic : string) (version_id : value) (t : list event) :
  (exists (body : gmap string value) (r : HttpRequest) (t1 : list event),
     snd (kafka.get_schema W topic version_id t) = t1 ++ [HttpSent r] /\
     http_requests_of t1 = http_requests_of t /\
     http_requests_of (snd (kafka.get_schema W topic version_id t)) =
       http_requests_of t ++ [r] /\
     requests_of (snd (kafka.get_schema W topic version_id t)) = requests_of t /\
     http_https r = true /\
     http_method r = "POST" /\
     http_url r = "hopsworks-api/api/appservice/schema" /\
     http_headers r = {[ "Content-type" := "application/json" ]} /\
     http_body r = json_dumps W (VDict body) /\
     body !! "topicName" = Some (VStr topic) /\
     body !! "version" = Some version_id /\
     fst (kafka.get_schema W topic version_id t) =
       json_loads W (http_read (http_getresponse W t1 r))) /\
  kafka.get_schema_default W topic = kafka.get_schema W topic (VInt 1).
Proof.
  split; [| reflexivity].
  rewrite get_schema_run. cbv zeta.
  eexists _, _, _. cbn [fst snd].
  split; [reflexivity |].
  unfold http_requests_of, requests_of.
  rewrite !omap_app. cbn [omap list_omap]. rewrite !app_nil_r.
  repeat split; try reflexivity; by simplify_map_eq.
Qed.

End Kafka.

(** C7 as stated does not hold: with [KAFKA_BROKERS] set the dictionary has
    nine entries, not eight, and without it nothing is returned
    ([os.environ[...]] raises [KeyError]). *)
Lemma kafka_default_config_not_eight :
  (exists d : gmap string string,
     kafka.get_kafka_default_config
       (sample.world sample.brokers sample.empty_backend sample.no_server) = Ok d /\
     size d <> 8%nat) /\
  raised (kafka.get_kafka_default_config
            (sample.world ∅ sample.empty_backend sample.no_server)) = Some KeyError.
Proof.
  split.
  - eexists. split; [reflexivity |]. vm_compute. discriminate.
  - vm_compute. reflexivity.
Qed.

Lemma kafka_default_config_entries_witness :
  (exists d : gmap string string,
     kafka.get_kafka_default_config
       (sample.world sample.brokers sample.empty_backend sample.no_server) = Ok d /\
     size d = 9%nat /\
     d !! "bootstrap.servers" = Some "10.0.2.15:9091,10.0.2.16:9091") /\
  raised (kafka.get_kafka_default_config
            (sample.world ∅ sample.empty_backend sample.no_server)) = Some KeyError.
Proof.
  split.
  - destruct (proj1 (kafka_default_config_entries
                       (sample.world sample.brokers sample.empty_backend
                          sample.no_server))
                "INTERNAL://10.0.2.15:9091,INTERNAL://10.0.2.16:9091")
      as (d & Hd & Hsize & Hb & _).
    + vm_compute. reflexivity.
    + exists d. repeat split; [exact Hd | exact Hsize |].
      rewrite Hb. vm_compute. reflexivity.
  - apply (proj2 (kafka_default_config_entries
                    (sample.world ∅ sample.empty_backend sample.no_server))).
    vm_compute. reflexivity.
Defined.

Lemma broker_endpoints_list_join_witness :
  exists (endpoints : string) (l : list string),
    kafka.get_broker_endpoints
      (sample.world sample.brokers sample.empty_backend sample.no_server) = Ok endpoints /\
    kafka.get_broker_endpoints_list
      (sample.world sample.brokers sample.empty_backend sample.no_server) = Ok l /\
    Py.str_join "," l = endpoints /\
    l <> [].
Proof.
  apply (broker_endpoints_list_join
           (sample.world sample.brokers sample.empty_backend sample.no_server)
           "INTERNAL://10.0.2.15:9091,INTERNAL://10.0.2.16:9091").
  vm_compute. reflexivity.
Defined.

(** ** [hops/serving.py] *)

Ltac run_M :=
  unfold mbind, M_bind, bind, mret, M_ret, ret, lift, raise, print.

Lemma exn_class_eqb_eq (a b : exn_class) : exn_class_eqb a b = true <-> a = b.
Proof. destruct a, b; simpl; split; intro H; try reflexivity; discriminate. Qed.

Lemma requests_of_app (t u : list event) :
  requests_of (t ++ u) = requests_of t ++ requests_of u.
Proof. unfold requests_of. apply omap_app. Qed.

Section Serving.
Context (K : ServingConstants) (W : World).

(** *** Searching the list of servings *)

Lemma find_loop_result (serving_name : string) (rest : list serving.Serving)
    (fr : serving.frame) :
  fst (serving.find_loop serving_name rest fr) =
    match List.find (fun s => String.eqb (serving.name s) serving_name) rest with
    | Some s => Ok s
    | None =>
        Raise (Exn ServingNotFound
                 [VStr serving_name;
                  VStr (Py.str_join ","
                          (serving.fr_serving_names fr ++ map serving.name rest))])
    end.
Proof.
  revert fr. induction rest as [|s rest IH]; intros fr; simpl.
  - now rewrite app_nil_r.
  - destruct (String.eqb (serving.name s) serving_name); [reflexivity |].
    rewrite IH. simpl. now rewrite <- app_assoc.
Qed.

Lemma find_loop_servings (serving_name : string) (rest : list serving.Serving)
    (fr : serving.frame) :
  serving.fr_servings (snd (serving.find_loop serving_name rest fr)) =
  serving.fr_servings fr.
Proof.
  revert fr. induction rest as [|s rest IH]; intros fr; simpl; [reflexivity |].
  destruct (String.eqb (serving.name s) serving_name); [reflexivity |].
  now rewrite IH.
Qed.

(** C4. [_find_serving_with_name] goes through the list in order and
    returns the first serving whose name is the one given; when there is
    none it raises [ServingNotFound]; the list is left as it was. *)
Theorem find_serving_with_name_first (serving_name : string)
    (servings : list serving.Serving) :
  serving._find_serving_with_name serving_name servings =
    match List.find (fun s => String.eqb (serving.name s) serving_name) servings with
    | Some s => Ok s
    | None =>
        Raise (Exn ServingNotFound
                 [VStr serving_name;
                  VStr (Py.str_join "," (map serving.name servings))])
    end /\
  serving.fr_servings
    (snd (serving._find_serving_with_name_run serving_name servings)) = servings.
Proof.
  unfold serving._find_serving_with_name, serving._find_serving_with_name_run.
  split.
  - now rewrite find_loop_result.
  - now rewrite find_loop_servings.
Qed.

(** What [List.find] finds is the first serving with the name: it has the
    name, and no serving before it has. *)
Lemma find_first (serving_name : string) (servings : list serving.Serving)
    (s : serving.Serving) :
  List.find (fun s => String.eqb (serving.name s) serving_name) servings = Some s <->
  exists pre post,
    servings = pre ++ s :: post /\
    serving.name s = serving_name /\
    Forall (fun x => serving.name x <> serving_name) pre.
Proof.
  induction servings as [|x l IH]; simpl.
  - split; [discriminate |]. intros (pre & post & H & _). now destruct pre.
  - destruct (String.eqb (serving.name x) serving_name) eqn:E.
    + apply String.eqb_eq in E. split.
      * intros [= ->]. exists [], l. repeat split; [exact E | constructor].
      * intros (pre & post & H & Hn & Hpre).
        destruct pre as [|y pre]; simpl in H; injection H as -> ->; [reflexivity |].
        inversion Hpre; subst. congruence.
    + apply String.eqb_neq in E. rewrite IH. split.
      * intros (pre & post & -> & Hn & Hpre).
        exists (x :: pre), post. repeat split; [exact Hn | now constructor].
      * intros (pre & post & H & Hn & Hpre).
        destruct pre as [|y pre]; simpl in H; injection H as -> ->; [congruence |].
        exists pre, post. inversion Hpre; subst. now repeat split.
Qed.

Lemma find_none (serving_name : string) (servings : list serving.Serving) :
  List.find (fun s => String.eqb (serving.name s) serving_name) servings = None <->
  Forall (fun x => serving.name x <> serving_name) servings.
Proof.
  induction servings as [|x l IH]; simpl; [split; [constructor | reflexivity] |].
  destruct (String.eqb (serving.name x) serving_name) eqn:E.
  - apply String.eqb_eq in E. split; [discriminate |].
    intros H. inversion H; subst. congruence.
  - apply String.eqb_neq in E. rewrite IH. split.
    + now constructor.
    + intros H. now inversion H.
Qed.

(** *** [get_id] and [exists] *)

Lemma get_servings_rest_run (t : list event) :
  serving._get_servings_rest K W t =
    (let response := util_send_request W t (serving.servings_request K W) in
     match json response with
     | Ok response_object =>
         if status_code response =? 200 then Ok response_object
         else Raise (Exn RestAPIError
                       [VStr (serving.serving_resource_url K W);
                        VInt (status_code response); VStr (reason response);
                        (util_parse_rest_error W response_object).1.1;
                        (util_parse_rest_error W response_object).1.2;
                        (util_parse_rest_error W response_object).2])
     | Raise e => Raise e
     end,
     t ++ [Sent (serving.servings_request K W)]).
Proof.
  unfold serving._get_servings_rest, serving.send_request. run_M.
  fold (serving.servings_request K W). cbv zeta.
  destruct (json (util_send_request W t (serving.servings_request K W)));
    [| reflexivity].
  destruct (util_parse_rest_error W a) as [[error_code error_msg] user_msg].
  destruct (status_code _ =? 200); reflexivity.
Qed.

Lemma get_all_trace (t : list event) :
  snd (serving.get_all K W t) = t ++ [Sent (serving.servings_request K W)].
Proof.
  unfold serving.get_all. run_M. rewrite get_servings_rest_run. cbv zeta.
  destruct (json _); [| reflexivity].
  destruct (status_code _ =? 200); reflexivity.
Qed.

(** [get_id] sends one request, the one for the list of servings. *)
Lemma get_id_trace (serving_name : string) (t : list event) :
  snd (serving.get_id K W serving_name t) =
  t ++ [Sent (serving.servings_request K W)].
Proof.
  unfold serving.get_id, try_except. run_M.
  pose proof (get_all_trace t) as Ht.
  destruct (serving.get_all K W t) as [[servings|e] t']; simpl in Ht; subst t'.
  - destruct (serving._find_serving_with_name serving_name servings); simpl;
      [reflexivity |].
    destruct (exn_class_eqb (exn_cls e) ServingNotFound); reflexivity.
  - destruct (exn_class_eqb (exn_cls e) ServingNotFound); reflexivity.
Qed.

Lemma get_id_never_ServingNotFound (serving_name : string) (t : list event) :
  raised (fst (serving.get_id K W serving_name t)) <> Some ServingNotFound.
Proof.
  unfold serving.get_id, try_except. run_M.
  destruct (serving.get_all K W t) as [[servings|e] t'].
  - destruct (serving._find_serving_with_name serving_name servings); simpl;
      [discriminate |].
    destruct (exn_class_eqb (exn_cls e) ServingNotFound) eqn:E; simpl;
      [discriminate |].
    intros [= H]. apply exn_class_eqb_eq in H. congruence.
  - destruct (exn_class_eqb (exn_cls e) ServingNotFound) eqn:E; simpl;
      [discriminate |].
    intros [= H]. apply exn_class_eqb_eq in H. congruence.
Qed.

(** C9. [exists(serving_name)] is [True] exactly when [get_id(serving_name)]
    returns a value other than [None]; neither lets [ServingNotFound]
    through: [get_id] catches it, so the handler of [exists] is never
    entered and [exists] is its [try] body. *)
Theorem exists_is_get_id_not_None (serving_name : string) (t : list event) :
  raised (fst (serving.get_id K W serving_name t)) <> Some ServingNotFound /\
  raised (fst (serving.exists_ K W serving_name t)) <> Some ServingNotFound /\
  serving.exists_ K W serving_name t =
    (match fst (serving.get_id K W serving_name t) with
     | Ok serving_id => Ok (bool_decide (serving_id <> None))
     | Raise e => Raise e
     end,
     snd (serving.get_id K W serving_name t)).
Proof.
  pose proof (get_id_never_ServingNotFound serving_name t) as Hid.
  assert (Hex : serving.exists_ K W serving_name t =
    (match fst (serving.get_id K W serving_name t) with
     | Ok serving_id => Ok (bool_decide (serving_id <> None))
     | Raise e => Raise e
     end,
     snd (serving.get_id K W serving_name t))).
  { unfold serving.exists_, try_except. run_M.
    destruct (serving.get_id K W serving_name t) as [[serving_id|e] t'];
      simpl in *; [reflexivity |].
    destruct (exn_class_eqb (exn_cls e) ServingNotFound) eqn:E; [| reflexivity].
    apply exn_class_eqb_eq in E. congruence. }
  split; [exact Hid |]. split; [| exact Hex].
  rewrite Hex. simpl.
  destruct (fst (serving.get_id K W serving_name t)); [discriminate | exact Hid].
Qed.

(** *** The REST helpers *)

Ltac run_helper t :=
  unfold serving.checks_status, serving.decodes_then_checks_status,
    serving.send_request; run_M; cbv zeta;
  match goal with
  | W : World |- context [util_send_request W t ?r] =>
      set (request := r); set (response := util_send_request W t request)
  end.

Ltac sent_request :=
  match goal with
  | request := _ : Request |- _ =>
      exists request; cbn [fst snd]; split; [reflexivity |]
  end.

Lemma delete_serving_rest_checks (serving_id : option Z) (t : list event) :
  serving.checks_status W (fun c => c =? 200) t
    (serving._delete_serving_rest K W serving_id t).
Proof.
  unfold serving._delete_serving_rest. run_helper t.
  destruct (status_code response =? 200) eqn:E; cbn [negb].
  - sent_request. fold response. rewrite E. split; [tauto | discriminate].
  - destruct (json response) as [o|e] eqn:J.
    + destruct (util_parse_rest_error W o) as [[error_code error_msg] user_msg].
      sent_request. fold response. rewrite E, J.
      split; [split; discriminate | reflexivity].
    + sent_request. fold response. rewrite E, J.
      split; [split; discriminate | reflexivity].
Qed.

Lemma start_or_stop_serving_rest_checks (serving_id : option Z) (action : string)
    (t : list event) :
  serving.checks_status W (fun c => c =? 200) t
    (serving._start_or_stop_serving_rest K W serving_id action t).
Proof.
  unfold serving._start_or_stop_serving_rest. run_helper t.
  destruct (status_code response =? 200) eqn:E; cbn [negb].
  - sent_request. fold response. rewrite E. split; [tauto | discriminate].
  - destruct (json response) as [o|e] eqn:J.
    + destruct (util_parse_rest_error W o) as [[error_code error_msg] user_msg].
      sent_request. fold response. rewrite E, J.
      split; [split; discriminate | reflexivity].
    + sent_request. fold response. rewrite E, J.
      split; [split; discriminate | reflexivity].
Qed.

Lemma create_or_update_serving_rest_checks (serving_name model_path : string)
    (model_version : value) (model_server : string) (kfserving : bool)
    (batching_enabled topic_name num_partitions num_replicas : value)
    (serving_id : option Z) (instances : value) (t : list event) :
  serving.checks_status W (fun c => (c =? 200) || (c =? 201)) t
    (serving._create_or_update_serving_rest K W serving_name model_path model_version
       model_server kfserving batching_enabled topic_name num_partitions num_replicas
       serving_id instances t).
Proof.
  unfold serving._create_or_update_serving_rest. run_helper t.
  destruct (status_code response =? 201) eqn:E1;
    destruct (status_code response =? 200) eqn:E2; cbn [negb andb];
    try (sent_request; fold response; rewrite E1, E2; split; [tauto | discriminate]).
  destruct (json response) as [o|e] eqn:J.
  - destruct (util_parse_rest_error W o) as [[error_code error_msg] user_msg].
    sent_request. fold response. rewrite E1, E2, J.
    split; [split; discriminate | reflexivity].
  - sent_request. fold response. rewrite E1, E2, J.
    split; [split; discriminate | reflexivity].
Qed.

Lemma make_inference_request_rest_checks (serving_name : string) (data : value)
    (verb : string) (t : list event) :
  serving.decodes_then_checks_status W (fun c => (c =? 200) || (c =? 201)) t
    (serving._make_inference_request_rest K W serving_name data verb t).
Proof.
  unfold serving._make_inference_request_rest. run_helper t.
  destruct (json response) as [o|e] eqn:J.
  - destruct (util_parse_rest_error W o) as [[error_code error_msg] user_msg].
    destruct (status_code response =? 201) eqn:E1;
      destruct (status_code response =? 200) eqn:E2; cbn [negb andb];
      sent_request; fold response; rewrite E1, E2, J;
      split; intros; try discriminate; reflexivity.
  - sent_request. fold response. now rewrite J.
Qed.

(** What the four helpers do with the status: each of
    [_delete_serving_rest] and [_start_or_stop_serving_rest] returns
    [None] exactly when the status code of the response is 200, and
    [_create_or_update_serving_rest] exactly when it is 200 or 201;
    with another status and a JSON body they raise [RestAPIError].
    [_make_inference_request_rest] decodes the body first: with a JSON
    body it returns it on 200 or 201 and raises [RestAPIError]
    otherwise. The decoding is not guarded: a body that is not JSON
    makes it raise, whatever the status (an example is given further
    down). *)
Theorem serving_rest_helpers_check_status (serving_name model_path action verb : string)
    (model_version data : value) (model_server : string) (kfserving : bool)
    (batching_enabled topic_name num_partitions num_replicas : value)
    (serving_id : option Z) (instances : value) (t : list event) :
  serving.checks_status W (fun c => c =? 200) t
    (serving._delete_serving_rest K W serving_id t) /\
  serving.checks_status W (fun c => c =? 200) t
    (serving._start_or_stop_serving_rest K W serving_id action t) /\
  serving.checks_status W (fun c => (c =? 200) || (c =? 201)) t
    (serving._create_or_update_serving_rest K W serving_name model_path model_version
       model_server kfserving batching_enabled topic_name num_partitions num_replicas
       serving_id instances t) /\
  serving.decodes_then_checks_status W (fun c => (c =? 200) || (c =? 201)) t
    (serving._make_inference_request_rest K W serving_name data verb t).
Proof.
  split; [apply delete_serving_rest_checks |].
  split; [apply start_or_stop_serving_rest_checks |].
  split; [apply create_or_update_serving_rest_checks |].
  apply make_inference_request_rest_checks.
Qed.

(** *** Validation of the input of [create_or_update] *)

Lemma append_eq_single (a : string) (c : ascii) (b : string) (d : ascii) :
  a +:+ String c b = String d "" -> a = "" /\ c = d /\ b = "".
Proof.
  destruct a as [|x a].
  - rewrite append_empty_l. now intros [= -> ->].
  - rewrite append_cons. intros [= _ H]. destruct a; discriminate.
Qed.

(** A run of the class followed by [$] leaves no character outside the
    class but a newline in the last position. *)
Lemma plus_run_dollar_foreign (ranges : list (ascii * ascii)) (s : string) :
  re.plus_run ranges (re.match_from [re.Dollar] false) s = true ->
  forall (a : string) (c : ascii) (b : string),
    s = a +:+ String c b -> re.in_ranges c ranges = false ->
    c = re.newline /\ b = "".
Proof.
  induction s as [|x s IH]; cbn [re.plus_run]; [discriminate |].
  intros H a c b Hs Hc.
  apply andb_true_iff in H as [Hx H].
  destruct a as [|y a].
  - rewrite append_empty_l in Hs. injection Hs as -> ->. congruence.
  - rewrite append_cons in Hs. injection Hs as -> ->.
    apply orb_true_iff in H as [H | H]; [now apply (IH H a) |].
    cbn [re.match_from] in H. apply andb_true_iff in H as [H _].
    unfold re.at_dollar in H. apply orb_true_iff in H as [H | H];
      apply String.eqb_eq in H.
    + destruct a; discriminate.
    + apply append_eq_single in H as (_ & -> & ->). now split.
Qed.

Lemma name_pattern_foreign (s : string) :
  serving.has_foreign_char s -> re.match_ serving.name_pattern s = false.
Proof.
  intros (a & c & b & Hs & Hc & Hlast).
  destruct (re.match_ serving.name_pattern s) eqn:E; [| reflexivity].
  unfold re.match_, serving.name_pattern in E. cbn [re.match_from andb] in E.
  destruct Hlast. exact (plus_run_dollar_foreign _ _ E a c b Hs Hc).
Qed.

(** Whatever check fails, validation fails with [ValueError]. *)
Lemma validate_raises_ValueError (serving_name model_path : string)
    (model_version : value) (model_server : string) (kfserving : bool)
    (batching_enabled topic_name num_partitions num_replicas instances : value) :
  match serving._validate_user_serving_input K W serving_name model_path
          model_version model_server kfserving batching_enabled topic_name
          num_partitions num_replicas instances with
  | Ok _ => True
  | Raise e => exn_cls e = ValueError
  end.
Proof.
  unfold serving._validate_user_serving_input, serving.check.
  unfold mbind, serving.result_bind.
  repeat match goal with
         | |- context [if ?c then _ else _] => destruct c; try reflexivity
         end; exact I.
Qed.

Lemma validate_refuses (serving_name model_path : string)
    (model_version : value) (model_server : string) (kfserving : bool)
    (batching_enabled topic_name num_partitions num_replicas instances : value) :
  serving.refused serving_name model_version instances ->
  exists args : list value,
    serving._validate_user_serving_input K W serving_name model_path
      model_version model_server kfserving batching_enabled topic_name
      num_partitions num_replicas instances = Raise (Exn ValueError args).
Proof.
  intros Href.
  pose proof (validate_raises_ValueError serving_name model_path model_version
                model_server kfserving batching_enabled topic_name num_partitions
                num_replicas instances) as Hcls.
  destruct (serving._validate_user_serving_input K W serving_name model_path
              model_version model_server kfserving batching_enabled topic_name
              num_partitions num_replicas instances) as [[]|[cls args]] eqn:E.
  - exfalso. revert E.
    unfold serving._validate_user_serving_input, serving.check.
    unfold mbind, serving.result_bind.
    destruct Href as [-> | [Hlen | [Hchar | [Hver | Hinst]]]].
    + rewrite orb_true_r. discriminate.
    + apply Nat.ltb_lt in Hlen. rewrite Hlen. discriminate.
    + rewrite (name_pattern_foreign _ Hchar). cbn [negb]. rewrite orb_true_r.
      discriminate.
    + rewrite Hver. cbn [negb].
      repeat match goal with
             | |- context [if ?c then _ else _] => destruct c; try discriminate
             end.
    + rewrite Hinst. cbn [negb].
      repeat match goal with
             | |- context [if ?c then _ else _] => destruct c; try discriminate
             end.
  - simpl in Hcls. subst cls. now exists args.
Qed.

(** C10, as amended. For a serving name that is empty, longer than 256
    characters or has a character outside [[a-zA-Z0-9]] other than a
    newline in the last position, and for a [model_version] or [instances]
    that is not an [int], [create_or_update] does not return and sends no
    request but the one with which [get_id] asks for the servings, so no
    PUT; when that lookup returns, the exception is the [ValueError] of the
    validation, and otherwise it is the exception of the lookup. *)
Theorem create_or_update_refuses (serving_name artifact_path : string)
    (model_version : value) (model_server : option string) (kfserving : bool)
    (batching_enabled topic_name num_partitions num_replicas instances : value)
    (t : list event) :
  serving.refused serving_name model_version instances ->
  let run :=
    serving.create_or_update K W serving_name artifact_path model_version
      model_server kfserving batching_enabled topic_name num_partitions
      num_replicas instances t in
  is_Ok (fst run) = false /\
  requests_of (snd run) = requests_of t ++ [serving.servings_request K W] /\
  match fst (serving.get_id K W serving_name t) with
  | Ok _ => raised (fst run) = Some ValueError
  | Raise e => fst run = Raise e
  end.
Proof.
  intros Href. cbv zeta.
  unfold serving.create_or_update. run_M.
  pose proof (get_id_trace serving_name t) as Ht.
  destruct (serving.get_id K W serving_name t) as [[serving_id|e] t'];
    cbn [fst snd] in *; subst t'.
  - destruct model_server as [model_server|].
    + destruct (validate_refuses serving_name (hdfs_expand_path W artifact_path)
                  model_version model_server kfserving batching_enabled topic_name
                  num_partitions num_replicas instances Href) as [args ->].
      cbn [fst snd]. rewrite requests_of_app. cbn. rewrite ?app_nil_r.
      now repeat split.
    + unfold serving._detect_model_server. run_M.
      match goal with
      | |- context [serving._validate_user_serving_input K W _ _ _ ?ms] =>
          destruct (validate_refuses serving_name (hdfs_expand_path W artifact_path)
                      model_version ms kfserving batching_enabled topic_name
                      num_partitions num_replicas instances Href) as [args ->]
      end.
      cbn [fst snd]. rewrite !requests_of_app. cbn. rewrite ?app_nil_r.
      now repeat split.
  - rewrite requests_of_app. cbn. rewrite ?app_nil_r. now repeat split.
Qed.

End Serving.

(** A helper that checks the status never returns when the status is not
    accepted. *)
Lemma checks_status_failure (W : World) (accepted : Z -> bool) (t : list event)
    (run : result unit * list event) :
  serving.checks_status W accepted t run ->
  exists r : Request,
    snd run = t ++ [Sent r] /\
    (accepted (status_code (util_send_request W t r)) = false ->
     is_Ok (fst run) = false).
Proof.
  intros (r & Ht & Hok & Hfail). exists r. split; [exact Ht |].
  intros Hacc. specialize (Hfail Hacc).
  destruct (json (util_send_request W t r)).
  - destruct (fst run); [discriminate | reflexivity].
  - now rewrite Hfail.
Qed.

(** C3 fails on the code. The helpers are to raise [RestAPIError] when
    the REST call went wrong (their docstrings say so), but on the error
    path they call [response.json()] without a guard: to a gateway error
    with an HTML body, status 502, [_delete_serving_rest] answers with the
    [ValueError] of [response.json()], not with [RestAPIError]. *)
Lemma delete_serving_rest_bad_gateway :
  exists r : Request,
    snd (serving._delete_serving_rest sample.K
           (sample.world ∅ (fun _ _ => sample.bad_gateway) sample.no_server)
           (Some 7) []) = [Sent r] /\
    status_code
      (util_send_request
         (sample.world ∅ (fun _ _ => sample.bad_gateway) sample.no_server) [] r)
      <> 200 /\
    raised (fst (serving._delete_serving_rest sample.K
                   (sample.world ∅ (fun _ _ => sample.bad_gateway) sample.no_server)
                   (Some 7) [])) = Some ValueError /\
    raised (fst (serving._delete_serving_rest sample.K
                   (sample.world ∅ (fun _ _ => sample.bad_gateway) sample.no_server)
                   (Some 7) [])) <> Some RestAPIError.
Proof.
  eexists. split; [vm_compute; reflexivity |].
  split; [vm_compute; discriminate |].
  split; [vm_compute; reflexivity | vm_compute; discriminate].
Qed.

Lemma serving_rest_helpers_check_status_witness :
  serving.checks_status
    (sample.world ∅ (fun _ _ => sample.server_error) sample.no_server)
    (fun c => c =? 200) []
    (serving._delete_serving_rest sample.K
       (sample.world ∅ (fun _ _ => sample.server_error) sample.no_server)
       (Some 7) []) /\
  raised (fst (serving._delete_serving_rest sample.K
                 (sample.world ∅ (fun _ _ => sample.server_error) sample.no_server)
                 (Some 7) [])) = Some RestAPIError.
Proof.
  split.
  - apply (serving_rest_helpers_check_status sample.K
             (sample.world ∅ (fun _ _ => sample.server_error) sample.no_server)
             "mnist" "/Projects/demo/Models/mnist" "START" ":predict"
             (VInt 1) (VList []) "TENSORFLOW_SERVING" false (VBool false)
             (VStr "CREATE") (VInt 1) (VInt 1) (Some 7) (VInt 1) []).
  - vm_compute. reflexivity.
Defined.

(** C5 fails on the code: [get_schema] does not look at the status of the
    response. Asked for a schema the server does not know, it returns the
    body of the 404 response as its result. *)
Theorem get_schema_returns_error_body :
  exists (r : HttpRequest) (t1 : list event),
    kafka.get_schema
      (sample.world sample.brokers sample.empty_backend sample.not_found_server)
      "weather" (VInt 1) [] = (Ok (VDict ∅), t1 ++ [HttpSent r]) /\
    http_status
      (http_getresponse
         (sample.world sample.brokers sample.empty_backend sample.not_found_server)
         t1 r) = 404.
Proof.
  eexists _, _. rewrite get_schema_run. cbv zeta.
  split; [reflexivity |]. reflexivity.
Qed.

(** C10 as stated does not hold. With an empty name and a backend that
    fails to list the servings, [create_or_update] raises the
    [RestAPIError] of the lookup, not [ValueError]; and the name
    [mnist] followed by a newline passes the validation, so that the PUT
    is sent. *)
Lemma create_or_update_not_refused :
  raised (fst (serving.create_or_update sample.K
                 (sample.world ∅ (fun _ _ => sample.server_error) sample.no_server)
                 "" "/Projects/demo/Models/mnist" (VInt 1) None false
                 (VBool false) (VStr "CREATE") (VInt 1) (VInt 1) (VInt 1) []))
    = Some RestAPIError /\
  (re.in_ranges re.newline serving.name_ranges = false /\
   fst (serving.create_or_update sample.K
          (sample.world ∅ sample.empty_backend sample.no_server)
          ("mnist" +:+ String re.newline "") "/Projects/demo/Models/mnist"
          (VInt 1) None false (VBool false) (VStr "CREATE") (VInt 1) (VInt 1)
          (VInt 1) []) = Ok tt /\
   req_method <$>
     requests_of
       (snd (serving.create_or_update sample.K
               (sample.world ∅ sample.empty_backend sample.no_server)
               ("mnist" +:+ String re.newline "") "/Projects/demo/Models/mnist"
               (VInt 1) None false (VBool false) (VStr "CREATE") (VInt 1) (VInt 1)
               (VInt 1) [])) = ["GET"; "PUT"]).
Proof.
  split; [vm_compute; reflexivity |].
  split; [vm_compute; reflexivity |].
  split; vm_compute; reflexivity.
Qed.

Lemma create_or_update_refuses_witness :
  serving.refused "my model" (VInt 1) (VInt 1) /\
  is_Ok (fst (serving.create_or_update sample.K
                (sample.world ∅ sample.empty_backend sample.no_server)
                "my model" "/Projects/demo/Models/mnist" (VInt 1) None false
                (VBool false) (VStr "CREATE") (VInt 1) (VInt 1) (VInt 1) []))
    = false.
Proof.
  assert (H : serving.refused "my model" (VInt 1) (VInt 1)).
  { right. right. left. exists "my", " "%char, "model".
    split; [reflexivity |]. split; [vm_compute; reflexivity |].
    intros [H _]. discriminate. }
  split; [exact H |].
  exact (proj1 (create_or_update_refuses sample.K
                  (sample.world ∅ sample.empty_backend sample.no_server)
                  "my model" "/Projects/demo/Models/mnist" (VInt 1) None false
                  (VBool false) (VStr "CREATE") (VInt 1) (VInt 1) (VInt 1) [] H)).
Defined.

(** ** The query planner *)

Section Query_planner.
Import query_planner.

(** Each item of a joined list is found in the joined string. *)
Lemma join_contains {A} (sep : string) (f : A -> string) (l : list A) :
  Forall (fun x => exists a b, Py.str_join sep (f <$> l) = a +:+ f x +:+ b) l.
Proof.
  unfold Py.str_join.
  induction l as [|y l IH]; constructor.
  - destruct l as [|z l].
    + exists "", "". cbn. now rewrite append_empty_r.
    + exists "", (sep +:+ String.concat sep (f <$> z :: l)). reflexivity.
  - destruct l as [|z l]; [constructor |].
    eapply Forall_impl; [exact IH |].
    intros x (a & b & H). cbn in H.
    exists (f y +:+ sep +:+ a), b.
    change (String.concat sep (f <$> y :: z :: l))
      with (f y +:+ sep +:+ String.concat sep (f <$> z :: l)).
    cbn. rewrite H. now rewrite !append_assoc.
Qed.

(** C1. For a first feature group and the others after it,
    [_get_join_str] is the concatenation of [JOIN <name>_<version>] for
    each of the others, of [ON], and of the conditions
    [<first>.`<key>`=<other>.`<key>`], one per other feature group,
    separated by [AND]: each of the others is joined, and joined to the
    first on the key. On the four feature groups of [test_get_join_str]
    and the key [team_id] it is the string the test expects. *)
Theorem get_join_str_joins_to_first (first : Featuregroup)
    (others : list Featuregroup) (join_key : string) :
  _get_join_str (first :: others) join_key =
    Py.str_join " " (join_clause <$> others) +:+ " ON " +:+
    Py.str_join " AND " (join_condition first join_key <$> others) /\
  length (join_condition first join_key <$> others) = length others /\
  Forall (fun fg =>
            exists a b c d,
              _get_join_str (first :: others) join_key =
                (a +:+ ("JOIN " +:+ name fg +:+ "_" +:+ pretty (version fg)) +:+ b)
                +:+ " ON " +:+
                (c +:+ (name first +:+ "_" +:+ pretty (version first) +:+ ".`" +:+
                        join_key +:+ "`=" +:+
                        name fg +:+ "_" +:+ pretty (version fg) +:+ ".`" +:+
                        join_key +:+ "`") +:+ d))
         others /\
  _get_join_str
    [attendances_features; players_features; season_scores_features; teams_features]
    "team_id" =
    "JOIN players_features_1 JOIN season_scores_features_1 JOIN teams_features_1 " +:+
    "ON attendances_features_1.`team_id`=players_features_1.`team_id` " +:+
    "AND attendances_features_1.`team_id`=season_scores_features_1.`team_id` " +:+
    "AND attendances_features_1.`team_id`=teams_features_1.`team_id`".
Proof.
  split; [reflexivity |].
  split; [apply length_fmap |].
  split; [| vm_compute; reflexivity].
  cbn [_get_join_str].
  pose proof (join_contains " " join_clause others) as Hj.
  pose proof (join_contains " AND " (join_condition first join_key) others) as Hc.
  rewrite Forall_forall in Hj, Hc. apply Forall_forall. intros fg Hfg.
  destruct (Hj fg Hfg) as (a & b & ->).
  destruct (Hc fg Hfg) as (c & d & ->).
  exists a, b, c, d.
  unfold join_clause, join_condition, table_of, _get_join_str, _get_table_name.
  now rewrite !append_assoc.
Qed.

Lemma find_matches_filter (feature : string) (featuregroups matches : list Featuregroup) :
  find_matches feature featuregroups matches =
  matches ++ List.filter (contains_feature feature) featuregroups.
Proof.
  revert matches. induction featuregroups as [|fg rest IH]; intros matches; simpl.
  - now rewrite app_nil_r.
  - destruct (contains_feature feature fg); rewrite IH; [| reflexivity].
    now rewrite <- app_assoc.
Qed.

Lemma contains_feature_In (feature : string) (fg : Featuregroup) :
  contains_feature feature fg = true <->
  In feature (map feature_name (features fg)).
Proof.
  unfold contains_feature. rewrite existsb_exists, in_map_iff.
  split; intros (f & H1 & H2).
  - apply String.eqb_eq in H2. now exists f.
  - exists f. split; [exact H2 |]. now apply String.eqb_eq.
Qed.

(** C2. [_find_featuregroup_that_contains_feature] returns, in the order
    of the list, all the feature groups with a feature of the given name;
    [_find_feature] returns the feature group when there is exactly one,
    raises [FeatureNotFound] when there is none and
    [FeatureNameCollisionError] when there are several. *)
Theorem find_feature_by_linear_search (feature featurestore : string)
    (featuregroups : list Featuregroup) :
  _find_featuregroup_that_contains_feature featuregroups feature =
    List.filter (contains_feature feature) featuregroups /\
  (forall fg : Featuregroup,
     In fg (_find_featuregroup_that_contains_feature featuregroups feature) <->
     In fg featuregroups /\ In feature (map feature_name (features fg))) /\
  match List.filter (contains_feature feature) featuregroups with
  | [] => raised (_find_feature feature featurestore featuregroups) = Some FeatureNotFound
  | [fg] => _find_feature feature featurestore featuregroups = Ok fg
  | _ :: _ :: _ =>
      raised (_find_feature feature featurestore featuregroups) =
        Some FeatureNameCollisionError
  end.
Proof.
  assert (H : _find_featuregroup_that_contains_feature featuregroups feature =
              List.filter (contains_feature feature) featuregroups).
  { unfold _find_featuregroup_that_contains_feature.
    now rewrite find_matches_filter. }
  split; [exact H |]. split.
  - intros fg. rewrite H, filter_In, contains_feature_In. reflexivity.
  - unfold _find_feature. rewrite H.
    destruct (List.filter (contains_feature feature) featuregroups) as [|x [|y l]];
      reflexivity.
Qed.

End Query_planner.

(** The three cases of [test_find_feature], on feature groups like those
    of the sample metadata. *)
Example find_feature_cases :
  let featuregroups :=
    [query_planner.games_features; query_planner.attendances_features;
     query_planner.players_features; query_planner.season_scores_features;
     query_planner.teams_features] in
  query_planner._find_feature "team_budget" "test_project_featurestore" featuregroups
    = Ok query_planner.teams_features /\
  raised (query_planner._find_feature "team_id" "test_project_featurestore" featuregroups)
    = Some FeatureNameCollisionError /\
  length (query_planner._find_featuregroup_that_contains_feature featuregroups "team_id")
    = 4%nat /\
  raised (query_planner._find_feature "non_existent_feature" "test_project_featurestore"
            featuregroups)
    = Some FeatureNotFound.
Proof. vm_compute. repeat split. Qed.

(** Examples of the search for a serving and of [exists]. *)
Example find_serving_with_name_cases :
  serving._find_serving_with_name "iris" [sample.mnist; sample.iris] = Ok sample.iris /\
  raised (serving._find_serving_with_name "wine" [sample.mnist; sample.iris])
    = Some ServingNotFound.
Proof. vm_compute. split; reflexivity. Qed.

Example exists_no_serving :
  fst (serving.exists_ sample.K
         (sample.world ∅ sample.empty_backend sample.no_server) "mnist" []) = Ok false.
Proof. vm_compute. reflexivity. Qed.

(** * Further properties *)

(** ** Broker endpoints *)

Section Endpoints.
Import constants.
Context (W : World).

Lemma str_replace_no_occurrence (s old new : string) :
  old <> "" ->
  (forall a b, s <> a +:+ old +:+ b) ->
  Py.str_replace s old new = s.
Proof.
  intros Hold. induction s as [|c s IH]; intros Hs.
  - now apply str_replace_empty.
  - assert (E : Py.startswith (String c s) old = false).
    { destruct (Py.startswith (String c s) old) eqn:E; [| reflexivity].
      destruct (startswith_split _ _ E) as [r Hr].
      destruct (Hs "" r). now rewrite append_empty_l. }
    rewrite str_replace_keep by assumption. f_equal. apply IH.
    intros a b ->. apply (Hs (String c a) b). now rewrite append_cons.
Qed.

Lemma internal_not_before_comma (a h : string) :
  a +:+ "INTERNAL://" = h +:+ "," -> False.
Proof.
  intros H. apply append_eq_append in H as [(a' & _ & H) | (p & _ & H)].
  - destruct a' as [|x a']; [discriminate |].
    rewrite append_cons in H. injection H as _ H. destruct a'; discriminate.
  - repeat (destruct p as [|? p];
            [rewrite ?append_empty_l in H; discriminate
            | rewrite append_cons in H; injection H as _ H]).
    destruct p; discriminate.
Qed.

Lemma no_occurrence_before_comma (h : string) :
  (forall a b, h <> a +:+ "INTERNAL://" +:+ b) ->
  forall a b, h +:+ "," <> a +:+ "INTERNAL://" +:+ b.
Proof.
  intros Hh a b H. rewrite <- append_assoc in H.
  apply append_eq_append in H as [(a' & H & _) | (p & H & Hp)].
  - apply (Hh a a'). now rewrite H, append_assoc.
  - destruct p as [|d p].
    + apply (Hh a ""). now rewrite append_empty_r in *.
    + rewrite append_cons in Hp. injection Hp as <- Hp.
      destruct p; [| discriminate].
      exact (internal_not_before_comma _ _ H).
Qed.

Lemma startswith_comma (c : ascii) (s : string) :
  Py.startswith (String c s) "," = true <-> c = ","%char.
Proof.
  unfold Py.startswith.
  change (String.prefix "," (String c s))
    with (if ascii_dec "," c then String.prefix "" s else false).
  destruct (ascii_dec "," c) as [<-|Hne].
  - split; [reflexivity |]. now destruct s.
  - split; [discriminate | congruence].
Qed.

Lemma split_comma_free_piece (h rest : string) :
  (forall a b, h <> a +:+ "," +:+ b) ->
  Py.split_from "," 0 h = [h] /\
  Py.split_from "," 0 (h +:+ "," +:+ rest) = h :: Py.split_from "," 0 rest.
Proof.
  induction h as [|c h IH]; intros Hh.
  - split; [reflexivity |]. rewrite append_empty_l.
    change ("," +:+ rest) with (String "," rest). cbn [Py.split_from].
    now rewrite (proj2 (startswith_comma "," rest) eq_refl).
  - assert (Hc : c <> ","%char).
    { intros ->. now apply (Hh "" h). }
    assert (Hh' : forall a b, h <> a +:+ "," +:+ b).
    { intros a b ->. apply (Hh (String c a) b). now rewrite append_cons. }
    destruct (IH Hh') as [IH1 IH2].
    rewrite append_cons. cbn [Py.split_from].
    assert (E : forall s, Py.startswith (String c s) "," = false).
    { intros s. destruct (Py.startswith (String c s) ",") eqn:E; [| reflexivity].
      now apply startswith_comma in E. }
    rewrite !E, IH1, IH2. now split.
Qed.

Lemma split_join_comma (hosts : list string) :
  hosts <> [] ->
  Forall (fun h => forall a b, h <> a +:+ "," +:+ b) hosts ->
  Py.split_from "," 0 (Py.str_join "," hosts) = hosts.
Proof.
  unfold Py.str_join. induction hosts as [|h hosts IH]; [congruence |].
  intros _ Hall. inversion Hall as [|? ? Hh Hrest]; subst.
  destruct hosts as [|h2 hosts].
  - exact (proj1 (split_comma_free_piece h "" Hh)).
  - change (String.concat "," (h :: h2 :: hosts))
      with (h +:+ "," +:+ String.concat "," (h2 :: hosts)).
    rewrite (proj2 (split_comma_free_piece h _ Hh)).
    now rewrite IH.
Qed.

Lemma replace_internal_of_hosts (hosts : list string) :
  hosts <> [] ->
  Forall (fun h => forall a b, h <> a +:+ "INTERNAL://" +:+ b) hosts ->
  Py.str_replace (Py.str_join "," ((fun h => "INTERNAL://" +:+ h) <$> hosts))
    "INTERNAL://" "" = Py.str_join "," hosts.
Proof.
  unfold Py.str_join. induction hosts as [|h hosts IH]; [congruence |].
  intros _ Hall. inversion Hall as [|? ? Hh Hrest]; subst.
  destruct hosts as [|h2 hosts].
  - cbn [fmap list_fmap String.concat].
    rewrite str_replace_match by discriminate.
    now rewrite str_replace_no_occurrence by (discriminate || assumption).
  - specialize (IH ltac:(discriminate) Hrest).
    change (String.concat "," ((fun h => "INTERNAL://" +:+ h) <$> h :: h2 :: hosts))
      with (("INTERNAL://" +:+ h) +:+ "," +:+
            String.concat "," ((fun h => "INTERNAL://" +:+ h) <$> h2 :: hosts)).
    change (String.concat "," (h :: h2 :: hosts))
      with (h +:+ "," +:+ String.concat "," (h2 :: hosts)).
    rewrite <- IH.
    rewrite append_assoc, str_replace_match by discriminate.
    rewrite append_empty_l.
    assert (Hj : exists y,
               String.concat "," ((fun h => "INTERNAL://" +:+ h) <$> h2 :: hosts) =
               "INTERNAL://" +:+ y).
    { destruct hosts as [|h3 hosts].
      - now exists h2.
      - exists (h2 +:+ "," +:+
                String.concat "," ((fun h => "INTERNAL://" +:+ h) <$> h3 :: hosts)).
        change (String.concat "," ((fun h => "INTERNAL://" +:+ h) <$> h2 :: h3 :: hosts))
          with (("INTERNAL://" +:+ h2) +:+ "," +:+
                String.concat "," ((fun h => "INTERNAL://" +:+ h) <$> h3 :: hosts)).
        now rewrite append_assoc. }
    destruct Hj as [y Hy]. rewrite Hy.
    rewrite <- (append_assoc h ","), replace_internal_each_occurrence.
    rewrite (str_replace_match y) by discriminate. rewrite append_empty_l.
    rewrite (str_replace_no_occurrence (h +:+ ","))
      by (discriminate || now apply no_occurrence_before_comma).
    now rewrite append_assoc.
Qed.

(** X1. A value of [KAFKA_BROKERS] in which [INTERNAL://] does not occur
    is returned by [get_broker_endpoints()] as it is. *)
Theorem broker_endpoints_unchanged (brokers : string) :
  os_environ W !! "KAFKA_BROKERS" = Some brokers ->
  (forall a b, brokers <> a +:+ "INTERNAL://" +:+ b) ->
  kafka.get_broker_endpoints W = Ok brokers.
Proof.
  intros Henv Hfree. rewrite (get_broker_endpoints_set _ _ Henv).
  now rewrite str_replace_no_occurrence by (discriminate || assumption).
Qed.

(** X2. When [KAFKA_BROKERS] lists the brokers as
    [INTERNAL://h1,...,INTERNAL://hn], with at least one host and hosts
    that hold neither a comma nor [INTERNAL://],
    [get_broker_endpoints_list()] returns the hosts [h1, ..., hn]. *)
Theorem broker_endpoints_list_of_hosts (hosts : list string) :
  hosts <> [] ->
  Forall (fun h => (forall a b, h <> a +:+ "INTERNAL://" +:+ b) /\
                   (forall a b, h <> a +:+ "," +:+ b)) hosts ->
  os_environ W !! "KAFKA_BROKERS" =
    Some (Py.str_join "," ((fun h => "INTERNAL://" +:+ h) <$> hosts)) ->
  kafka.get_broker_endpoints_list W = Ok hosts.
Proof.
  intros Hne Hall Henv. unfold kafka.get_broker_endpoints_list.
  rewrite (get_broker_endpoints_set _ _ Henv).
  rewrite replace_internal_of_hosts;
    [| exact Hne | eapply Forall_impl; [exact Hall | now intros h [H _]]].
  cbn [Py.str_split]. f_equal. apply split_join_comma; [exact Hne |].
  eapply Forall_impl; [exact Hall | now intros h [_ H]].
Qed.

Lemma split_comma_pieces (s : string) :
  Forall (fun p => forall a b, p <> a +:+ "," +:+ b) (Py.split_from "," 0 s) /\
  length (Py.split_from "," 0 s) =
    S (count_occ ascii_dec (list_ascii_of_string s) ","%char).
Proof.
  induction s as [|c s [IH1 IH2]].
  - split; [| reflexivity]. constructor; [| constructor].
    intros [|x a] b H; discriminate.
  - cbn [Py.split_from list_ascii_of_string count_occ].
    destruct (Py.startswith (String c s) ",") eqn:E.
    + apply startswith_comma in E as ->. cbn [String.length Nat.pred].
      destruct (ascii_dec "," ","); [| congruence].
      split; [| cbn [length]; now rewrite IH2].
      constructor; [| exact IH1]. intros [|x a] b H; discriminate.
    + assert (Hc : c <> ","%char).
      { intros ->. now rewrite (proj2 (startswith_comma "," s) eq_refl) in E. }
      destruct (ascii_dec c ","); [congruence |].
      destruct (Py.split_from "," 0 s) as [|p ps]; [discriminate |].
      inversion IH1 as [|? ? Hp Hps]; subst.
      split; [| exact IH2].
      constructor; [| exact Hps].
      intros [|x a] b H.
      * rewrite append_empty_l in H. injection H as -> _. congruence.
      * rewrite append_cons in H. injection H as _ H. exact (Hp _ _ H).
Qed.

(** X3. No element of [get_broker_endpoints_list()] holds a comma, and the
    list has one element more than [get_broker_endpoints()] has commas. *)
Theorem broker_endpoints_list_pieces (brokers : string) :
  os_environ W !! "KAFKA_BROKERS" = Some brokers ->
  exists (endpoints : string) (l : list string),
    kafka.get_broker_endpoints W = Ok endpoints /\
    kafka.get_broker_endpoints_list W = Ok l /\
    Forall (fun p => forall a b, p <> a +:+ "," +:+ b) l /\
    length l = S (count_occ ascii_dec (list_ascii_of_string endpoints) ","%char).
Proof.
  intros Henv. unfold kafka.get_broker_endpoints_list.
  rewrite (get_broker_endpoints_set _ _ Henv).
  eexists _, _. split; [reflexivity |]. split; [reflexivity |].
  apply split_comma_pieces.
Qed.

(** X4. The body [get_schema] sends holds every entry of the request
    prepared by [rest_api], but for [topicName] and [version], which are
    set to the arguments even when the prepared request has them. *)
Theorem get_schema_body_entries (topic : string) (version_id : value) (t : list event) :
  exists (body : gmap string value) (r : HttpRequest) (t1 : list event),
    snd (kafka.get_schema W topic version_id t) = t1 ++ [HttpSent r] /\
    http_body r = json_dumps W (VDict body) /\
    body !! "topicName" = Some (VStr topic) /\
    body !! "version" = Some version_id /\
    dom body = dom (rest_prepare_rest_appservice_json_request W)
               ∪ {[ "topicName"; "version" ]} /\
    forall k : string,
      k <> "topicName" -> k <> "version" ->
      body !! k = rest_prepare_rest_appservice_json_request W !! k.
Proof.
  rewrite get_schema_run. cbv zeta. eexists _, _, _. cbn [fst snd].
  split; [reflexivity |]. split; [reflexivity |].
  unfold REST_CONFIG.JSON_SCHEMA_VERSION, REST_CONFIG.JSON_SCHEMA_TOPICNAME.
  split; [by simplify_map_eq |]. split; [by simplify_map_eq |].
  split.
  { rewrite !dom_insert_L. apply set_eq. intros k.
    rewrite !elem_of_union, !elem_of_singleton. tauto. }
  intros k H1 H2. rewrite !lookup_insert_ne by congruence. reflexivity.
Qed.

End Endpoints.

(** ** Looking servings up *)

Section Lookups.
Context (K : ServingConstants) (W : World).

Lemma get_all_run (t : list event) :
  serving.get_all K W t =
    (let response := util_send_request W t (serving.servings_request K W) in
     match json response with
     | Ok response_object =>
         if status_code response =? 200
         then serving._parse_json_servings K W response_object
         else Raise (Exn RestAPIError
                       [VStr (serving.serving_resource_url K W);
                        VInt (status_code response); VStr (reason response);
                        (util_parse_rest_error W response_object).1.1;
                        (util_parse_rest_error W response_object).1.2;
                        (util_parse_rest_error W response_object).2])
     | Raise e => Raise e
     end,
     t ++ [Sent (serving.servings_request K W)]).
Proof.
  unfold serving.get_all. run_M. rewrite get_servings_rest_run. cbv zeta.
  destruct (json _); [| reflexivity].
  destruct (status_code _ =? 200); reflexivity.
Qed.

(** The shape shared by the accessors. *)
Lemma accessor_run {A} (f : serving.Serving -> A) (serving_name : string)
    (t : list event) :
  (servings ← serving.get_all K W;
   serving ← lift (serving._find_serving_with_name serving_name servings);
   ret (f serving)) t =
    (match fst (serving.get_all K W t) with
     | Ok servings =>
         match serving._find_serving_with_name serving_name servings with
         | Ok serving => Ok (f serving)
         | Raise e => Raise e
         end
     | Raise e => Raise e
     end,
     t ++ [Sent (serving.servings_request K W)]).
Proof.
  run_M. pose proof (get_all_trace K W t) as Ht.
  destruct (serving.get_all K W t) as [[servings|e] t']; cbn [fst snd] in *;
    subst t'; [| reflexivity].
  destruct (serving._find_serving_with_name serving_name servings); reflexivity.
Qed.

Lemma get_id_run (serving_name : string) (t : list event) :
  serving.get_id K W serving_name t =
    (match fst (serving.get_all K W t) with
     | Ok servings =>
         match serving._find_serving_with_name serving_name servings with
         | Ok serving => Ok (Some (serving.id serving))
         | Raise e =>
             if exn_class_eqb (exn_cls e) ServingNotFound then Ok None else Raise e
         end
     | Raise e =>
         if exn_class_eqb (exn_cls e) ServingNotFound then Ok None else Raise e
     end,
     t ++ [Sent (serving.servings_request K W)]).
Proof.
  unfold serving.get_id, try_except.
  rewrite (accessor_run (fun s => Some (serving.id s))). cbn [fst snd].
  destruct (fst (serving.get_all K W t)) as [servings|e].
  - destruct (serving._find_serving_with_name serving_name servings) as [s|e];
      [reflexivity |].
    destruct (exn_class_eqb (exn_cls e) ServingNotFound); reflexivity.
  - destruct (exn_class_eqb (exn_cls e) ServingNotFound); reflexivity.
Qed.

Lemma find_serving_raises_ServingNotFound (serving_name : string)
    (servings : list serving.Serving) (e : exn) :
  serving._find_serving_with_name serving_name servings = Raise e ->
  exn_cls e = ServingNotFound.
Proof.
  unfold serving._find_serving_with_name, serving._find_serving_with_name_run.
  rewrite find_loop_result.
  destruct (List.find _ servings); [discriminate |]. now intros [= <-].
Qed.

Lemma exists_run (serving_name : string) (t : list event) :
  serving.exists_ K W serving_name t =
    (match fst (serving.get_id K W serving_name t) with
     | Ok serving_id => Ok (bool_decide (serving_id <> None))
     | Raise e => Raise e
     end,
     t ++ [Sent (serving.servings_request K W)]).
Proof.
  unfold serving.exists_, try_except. run_M.
  pose proof (get_id_never_ServingNotFound K W serving_name t) as Hn.
  pose proof (get_id_trace K W serving_name t) as Ht.
  destruct (serving.get_id K W serving_name t) as [[serving_id|e] t'];
    cbn [fst snd] in *; subst t'; [reflexivity |].
  destruct (exn_class_eqb (exn_cls e) ServingNotFound) eqn:E; [| reflexivity].
  apply exn_class_eqb_eq in E. simpl in Hn. congruence.
Qed.

(** X5. Looking a serving up changes nothing: [get_all], [get_id],
    [exists] and the accessors send the request for the list of
    servings, and nothing else, and print nothing. *)
Theorem lookups_send_one_request (serving_name : string) (t : list event) :
  let sent := t ++ [Sent (serving.servings_request K W)] in
  snd (serving.get_all K W t) = sent /\
  snd (serving.get_id K W serving_name t) = sent /\
  snd (serving.exists_ K W serving_name t) = sent /\
  snd (serving.get_artifact_path K W serving_name t) = sent /\
  snd (serving.get_model_server K W serving_name t) = sent /\
  snd (serving.get_serving_tool K W serving_name t) = sent /\
  snd (serving.get_version K W serving_name t) = sent /\
  snd (serving.get_status K W serving_name t) = sent.
Proof.
  cbv zeta.
  unfold serving.get_artifact_path, serving.get_model_server,
    serving.get_serving_tool, serving.get_version, serving.get_status.
  rewrite get_all_run, get_id_run, exists_run, !accessor_run. cbn [snd].
  repeat split.
Qed.

(** X7. When the backend answers the request for the servings with
    another status than 200 and a JSON body, [get_id], [exists] and the
    accessors raise [RestAPIError]: [exists] does not answer [False]. *)
Theorem lookups_raise_on_failure (serving_name : string) (t : list event)
    (payload : value) :
  status_code (util_send_request W t (serving.servings_request K W)) <> 200 ->
  json (util_send_request W t (serving.servings_request K W)) = Ok payload ->
  raised (fst (serving.get_id K W serving_name t)) = Some RestAPIError /\
  raised (fst (serving.exists_ K W serving_name t)) = Some RestAPIError /\
  raised (fst (serving.get_artifact_path K W serving_name t)) = Some RestAPIError /\
  raised (fst (serving.get_model_server K W serving_name t)) = Some RestAPIError /\
  raised (fst (serving.get_serving_tool K W serving_name t)) = Some RestAPIError /\
  raised (fst (serving.get_version K W serving_name t)) = Some RestAPIError /\
  raised (fst (serving.get_status K W serving_name t)) = Some RestAPIError.
Proof.
  intros Hstatus Hjson. apply Z.eqb_neq in Hstatus.
  unfold serving.get_artifact_path, serving.get_model_server,
    serving.get_serving_tool, serving.get_version, serving.get_status.
  rewrite exists_run, get_id_run, !accessor_run, get_all_run.
  cbv zeta. cbn [fst]. rewrite Hjson, Hstatus. cbn.
  repeat split.
Qed.

End Lookups.

(** ** Reading the servings of the backend *)

Section Payloads.
Context (K : ServingConstants) (W : World).

(** A serving that is built has, attribute by attribute, what the payload
    holds under the key of the attribute. *)
Lemma serving_init_ok_inv (serving_json : value) (s : serving.Serving) :
  serving.Serving_init K W serving_json = Ok s ->
  exists d : gmap string value,
    serving_json = VDict d /\
    d !! JSON_SERVING_STATUS K = Some (serving.status s) /\
    d !! JSON_SERVING_ARTIFACT_PATH K = Some (serving.artifact_path s) /\
    d !! JSON_SERVING_NAME K = Some (VStr (serving.name s)) /\
    d !! JSON_SERVING_CREATOR K = Some (serving.creator s) /\
    d !! JSON_MODEL_SERVER K = Some (serving.model_server s) /\
    d !! JSON_SERVING_TOOL K = Some (serving.serving_tool s) /\
    d !! JSON_SERVING_MODEL_VERSION K = Some (serving.model_version s) /\
    d !! JSON_SERVING_CREATED K = Some (serving.created s) /\
    d !! JSON_SERVING_REQUESTED_INSTANCES K = Some (serving.requested_instances s) /\
    d !! JSON_SERVING_ID K = Some (VInt (serving.id s)) /\
    serving.kafka_topic_dto s =
      KafkaTopicDTO W <$> d !! JSON_SERVING_KAFKA_TOPIC_DTO K.
Proof.
  destruct serving_json as [| | | | |d]; try discriminate.
  intros H. exists d. split; [reflexivity |]. revert H.
  unfold serving.Serving_init, getitem. unfold mbind, serving.result_bind.
  destruct (d !! JSON_SERVING_STATUS K) as [v1|]; [| discriminate].
  destruct (d !! JSON_SERVING_ARTIFACT_PATH K) as [v2|]; [| discriminate].
  destruct (d !! JSON_SERVING_NAME K) as [v3|]; [| discriminate].
  destruct (d !! JSON_SERVING_CREATOR K) as [v4|]; [| discriminate].
  destruct (d !! JSON_MODEL_SERVER K) as [v5|]; [| discriminate].
  destruct (d !! JSON_SERVING_TOOL K) as [v6|]; [| discriminate].
  destruct (d !! JSON_SERVING_MODEL_VERSION K) as [v7|]; [| discriminate].
  destruct (d !! JSON_SERVING_CREATED K) as [v8|]; [| discriminate].
  destruct (d !! JSON_SERVING_REQUESTED_INSTANCES K) as [v9|]; [| discriminate].
  destruct (d !! JSON_SERVING_ID K) as [v10|]; [| discriminate].
  destruct v3; try discriminate. destruct v10; try discriminate.
  intros [= <-]. cbn. repeat split.
Qed.

(** X10. A payload that is not a dictionary is refused with [TypeError],
    and a dictionary without one of the ten keys that are read with
    [KeyError]. *)
Theorem serving_init_errors :
  (forall serving_json : value,
     (forall d, serving_json <> VDict d) ->
     raised (serving.Serving_init K W serving_json) = Some TypeError) /\
  (forall (d : gmap string value) (k : string),
     In k [JSON_SERVING_STATUS K; JSON_SERVING_ARTIFACT_PATH K; JSON_SERVING_NAME K;
           JSON_SERVING_CREATOR K; JSON_MODEL_SERVER K; JSON_SERVING_TOOL K;
           JSON_SERVING_MODEL_VERSION K; JSON_SERVING_CREATED K;
           JSON_SERVING_REQUESTED_INSTANCES K; JSON_SERVING_ID K] ->
     d !! k = None ->
     raised (serving.Serving_init K W (VDict d)) = Some KeyError).
Proof.
  split.
  - intros [| | | | |d] H; try reflexivity. now destruct (H d).
  - intros d k Hin Hk.
    unfold serving.Serving_init, getitem. unfold mbind, serving.result_bind.
    destruct (d !! JSON_SERVING_STATUS K) as [v1|] eqn:E1; [| reflexivity].
    destruct (d !! JSON_SERVING_ARTIFACT_PATH K) as [v2|] eqn:E2; [| reflexivity].
    destruct (d !! JSON_SERVING_NAME K) as [v3|] eqn:E3; [| reflexivity].
    destruct (d !! JSON_SERVING_CREATOR K) as [v4|] eqn:E4; [| reflexivity].
    destruct (d !! JSON_MODEL_SERVER K) as [v5|] eqn:E5; [| reflexivity].
    destruct (d !! JSON_SERVING_TOOL K) as [v6|] eqn:E6; [| reflexivity].
    destruct (d !! JSON_SERVING_MODEL_VERSION K) as [v7|] eqn:E7; [| reflexivity].
    destruct (d !! JSON_SERVING_CREATED K) as [v8|] eqn:E8; [| reflexivity].
    destruct (d !! JSON_SERVING_REQUESTED_INSTANCES K) as [v9|] eqn:E9; [| reflexivity].
    destruct (d !! JSON_SERVING_ID K) as [v10|] eqn:E10; [| reflexivity].
    exfalso. simpl in Hin.
    repeat (destruct Hin as [<- | Hin]; [congruence |]). exact Hin.
Qed.

Lemma mapM_Forall2 {A B} (f : A -> result B) (l : list A) (bs : list B) :
  serving.mapM f l = Ok bs <-> Forall2 (fun a b => f a = Ok b) l bs.
Proof.
  revert bs. induction l as [|a l IH]; intros bs; cbn [serving.mapM].
  - split; [intros [= <-]; constructor | intros H; now inversion H].
  - unfold mbind, serving.result_bind. destruct (f a) as [b|e] eqn:E.
    + destruct (serving.mapM f l) as [bs'|e] eqn:E'.
      * split.
        -- intros [= <-]. constructor; [exact E | now apply IH].
        -- intros H. inversion H as [|? b0 ? bs0 Hb Hbs]; subst.
           apply IH in Hbs. congruence.
      * split; [discriminate |].
        intros H. inversion H as [|? b0 ? bs0 Hb Hbs]; subst.
        apply IH in Hbs. discriminate.
    + split; [discriminate |].
      intros H. inversion H; subst. congruence.
Qed.

(** X11. [_parse_json_servings] reads a list element by element: it
    returns exactly when every element builds a serving, and then the
    servings are those, one per element and in the order of the list.
    [None], a boolean or an integer is no list of servings:
    [TypeError]. *)
Theorem parse_json_servings_elementwise (l : list value)
    (servings : list serving.Serving) :
  (serving._parse_json_servings K W (VList l) = Ok servings <->
   Forall2 (fun serving_json s => serving.Serving_init K W serving_json = Ok s)
     l servings) /\
  (serving._parse_json_servings K W (VList l) = Ok servings ->
   length servings = length l) /\
  raised (serving._parse_json_servings K W VNone) = Some TypeError /\
  (forall b, raised (serving._parse_json_servings K W (VBool b)) = Some TypeError) /\
  (forall n, raised (serving._parse_json_servings K W (VInt n)) = Some TypeError).
Proof.
  assert (H : serving._parse_json_servings K W (VList l) = Ok servings <->
              Forall2 (fun serving_json s =>
                         serving.Serving_init K W serving_json = Ok s) l servings).
  { unfold serving._parse_json_servings. cbn. apply mapM_Forall2. }
  split; [exact H |]. split; [| repeat split].
  intros Hp. apply H in Hp. symmetry. exact (Forall2_length _ _ _ Hp).
Qed.

End Payloads.

(** ** What the validation accepts *)

Section Validation.
Context (K : ServingConstants) (W : World).

Lemma batching_flag_ok (kfserving : bool) (batching_enabled : value) :
  isinstance_bool batching_enabled = true /\
  kfserving && truthy batching_enabled = false <->
  exists b : bool, batching_enabled = VBool b /\ (kfserving = true -> b = false).
Proof.
  split.
  - intros [Hb Hk]. destruct batching_enabled as [|b| | | |]; try discriminate.
    exists b. split; [reflexivity |]. intros ->. exact Hk.
  - intros (b & -> & Hk). split; [reflexivity |].
    destruct kfserving; [| reflexivity]. cbn. now apply Hk.
Qed.

(** X12. [_validate_user_serving_input] accepts exactly the inputs with a
    name of at most 256 characters that is not empty and matches the
    pattern, an artifact that exists in HDFS, a supported model server,
    a model version and a number of instances that are [int]; for
    TensorFlow Serving also numbers of replicas and partitions that are
    [int] and a [bool] for batching, which is off with KFServing; and no
    Flask with KFServing. For another model server than TensorFlow
    Serving the Kafka numbers and the batching flag are not looked at. *)
Theorem validate_accepts_iff (serving_name model_path : string)
    (model_version : value) (model_server : string) (kfserving : bool)
    (batching_enabled topic_name num_partitions num_replicas instances : value) :
  serving._validate_user_serving_input K W serving_name model_path model_version
    model_server kfserving batching_enabled topic_name num_partitions num_replicas
    instances = Ok tt <->
  (String.length serving_name <= 256)%nat /\
  serving_name <> "" /\
  re.match_ serving.name_pattern serving_name = true /\
  hdfs_exists W model_path = true /\
  In model_server (MODEL_SERVERS K) /\
  isinstance_int model_version = true /\
  (model_server = MODEL_SERVER_TENSORFLOW_SERVING K ->
   isinstance_int num_replicas = true /\
   isinstance_int num_partitions = true /\
   exists b : bool, batching_enabled = VBool b /\ (kfserving = true -> b = false)) /\
  (kfserving = true -> model_server <> MODEL_SERVER_FLASK K) /\
  isinstance_int instances = true.
Proof.
  unfold serving._validate_user_serving_input, serving.check.
  unfold mbind, serving.result_bind.
  assert (Hin : In model_server (MODEL_SERVERS K) <->
                existsb (String.eqb model_server) (MODEL_SERVERS K) = true).
  { rewrite existsb_exists. split.
    - intros H. exists model_server. split; [exact H | apply String.eqb_refl].
    - intros (x & Hx & E). apply String.eqb_eq in E. now subst x. }
  split.
  - intros H.
    destruct ((256 <? String.length serving_name)%nat || String.eqb serving_name ""
              || negb (re.match_ serving.name_pattern serving_name)) eqn:E1;
      [discriminate |].
    apply orb_false_iff in E1 as [E1 E1c]. apply orb_false_iff in E1 as [E1a E1b].
    apply Nat.ltb_ge in E1a. apply String.eqb_neq in E1b.
    apply negb_false_iff in E1c.
    destruct (hdfs_exists W model_path) eqn:E2; [| discriminate].
    destruct (existsb (String.eqb model_server) (MODEL_SERVERS K)) eqn:E3;
      [| discriminate].
    destruct (isinstance_int model_version) eqn:E4; [| discriminate].
    cbn [negb] in H.
    destruct (String.eqb model_server (MODEL_SERVER_TENSORFLOW_SERVING K)) eqn:Etf.
    + destruct (isinstance_int num_replicas) eqn:E5; [| discriminate].
      destruct (isinstance_int num_partitions) eqn:E6; [| discriminate].
      destruct (isinstance_bool batching_enabled) eqn:E7; [| discriminate].
      cbn [negb] in H.
      destruct (kfserving && truthy batching_enabled) eqn:E8; [discriminate |].
      destruct (kfserving && String.eqb model_server (MODEL_SERVER_FLASK K)) eqn:E9;
        [discriminate |].
      destruct (isinstance_int instances) eqn:E10; [| discriminate].
      repeat split; try assumption; try (now apply Hin).
      * now apply batching_flag_ok.
      * intros -> Hf. apply String.eqb_eq in Hf. now rewrite Hf in E9.
    + destruct (kfserving && String.eqb model_server (MODEL_SERVER_FLASK K)) eqn:E9;
        [discriminate |].
      destruct (isinstance_int instances) eqn:E10; [| discriminate].
      apply String.eqb_neq in Etf.
      repeat split; try assumption; try (now apply Hin); try congruence.
      intros -> Hf. apply String.eqb_eq in Hf. now rewrite Hf in E9.
  - intros (H1 & H2 & H3 & H4 & H5 & H6 & Htf & Hflask & H10).
    apply Nat.ltb_ge in H1. apply String.eqb_neq in H2. apply Hin in H5.
    rewrite H1, H2, H3, H4, H5, H6, H10. cbn [negb orb].
    assert (E9 : kfserving && String.eqb model_server (MODEL_SERVER_FLASK K) = false).
    { destruct kfserving; [| reflexivity]. cbn. apply String.eqb_neq.
      now apply Hflask. }
    rewrite E9.
    destruct (String.eqb model_server (MODEL_SERVER_TENSORFLOW_SERVING K)) eqn:Etf;
      [| reflexivity].
    apply String.eqb_eq in Etf. destruct (Htf Etf) as (H7 & H8 & Hb).
    apply batching_flag_ok in Hb as [Hb1 Hb2].
    now rewrite H7, H8, Hb1, Hb2.
Qed.

Lemma plus_run_all (ranges : list (ascii * ascii)) (k : string -> bool) (s : string) :
  s <> "" -> k "" = true ->
  Forall (fun c => re.in_ranges c ranges = true) (list_ascii_of_string s) ->
  re.plus_run ranges k s = true.
Proof.
  intros Hs Hk. induction s as [|c s IH]; [congruence |].
  cbn [list_ascii_of_string re.plus_run]. intros Hall.
  inversion Hall as [|? ? Hc Hrest]; subst. rewrite Hc. cbn [andb].
  destruct s as [|d s]; [now rewrite Hk, orb_true_r |].
  rewrite IH; [reflexivity | discriminate | exact Hrest].
Qed.

(** X13. A name that is not empty and is made of the characters
    [a-z], [A-Z] and [0-9] only matches the pattern of the serving
    names, whatever its length. *)
Theorem name_pattern_accepts_alphanumeric (serving_name : string) :
  serving_name <> "" ->
  Forall (fun c => re.in_ranges c serving.name_ranges = true)
    (list_ascii_of_string serving_name) ->
  re.match_ serving.name_pattern serving_name = true.
Proof.
  intros Hne Hall. unfold re.match_, serving.name_pattern.
  cbn [re.match_from andb]. now apply plus_run_all.
Qed.

Lemma substring_skip (p x : string) (m : nat) :
  String.substring (String.length p) m (p +:+ x) = String.substring 0 m x.
Proof.
  induction p as [|c p IH]; [reflexivity |].
  rewrite append_cons. cbn [String.length String.substring]. exact IH.
Qed.

Lemma substring_all (x : string) : String.substring 0 (String.length x) x = x.
Proof. induction x as [|c x IH]; [reflexivity |]. cbn. now rewrite IH. Qed.

Lemma substring_suffix (s : string) (k : nat) :
  (k <= String.length s)%nat ->
  exists p, s = p +:+ String.substring k (String.length s - k) s /\
            String.length p = k.
Proof.
  revert k. induction s as [|c s IH]; intros k Hk.
  - exists "". cbn in Hk. replace k with 0%nat by lia. now split.
  - destruct k as [|k].
    + exists "". rewrite Nat.sub_0_r, substring_all. now split.
    + cbn in Hk. destruct (IH k ltac:(lia)) as (p & Hp & Hlen).
      exists (String c p). rewrite append_cons. cbn [String.length String.substring].
      cbn [Nat.sub]. rewrite <- Hp. split; [reflexivity | now rewrite Hlen].
Qed.

Lemma endswith_iff (s suffix : string) :
  Py.endswith s suffix = true <-> exists p, s = p +:+ suffix.
Proof.
  unfold Py.endswith. split.
  - intros H. apply andb_true_iff in H as [Hlen Heq].
    apply Nat.leb_le in Hlen. apply String.eqb_eq in Heq.
    destruct (substring_suffix s (String.length s - String.length suffix)
                ltac:(lia)) as (p & Hp & _).
    replace (String.length s - (String.length s - String.length suffix))%nat
      with (String.length suffix) in Hp by lia.
    rewrite Heq in Hp. now exists p.
  - intros [p ->]. rewrite length_append. apply andb_true_iff. split.
    + apply Nat.leb_le. lia.
    + apply String.eqb_eq.
      replace (String.length p + String.length suffix - String.length suffix)%nat
        with (String.length p) by lia.
      now rewrite substring_skip, substring_all.
Qed.

(** X14. [_detect_model_server] takes an artifact whose path ends in
    [.py] for a Flask model and any other artifact for a model of
    TensorFlow Serving; it prints its choice, and does nothing else. *)
Theorem detect_model_server_by_suffix (artifact_path : string) (t : list event) :
  ((exists p, artifact_path = p +:+ ".py") ->
   serving._detect_model_server K artifact_path t =
     (Ok (MODEL_SERVER_FLASK K),
      t ++ [Print "Inferring model server from artifact files: {}"
              [VStr (MODEL_SERVER_FLASK K)]])) /\
  (~ (exists p, artifact_path = p +:+ ".py") ->
   serving._detect_model_server K artifact_path t =
     (Ok (MODEL_SERVER_TENSORFLOW_SERVING K),
      t ++ [Print "Inferring model server from artifact files: {}"
              [VStr (MODEL_SERVER_TENSORFLOW_SERVING K)]])).
Proof.
  unfold serving._detect_model_server. run_M.
  pose proof (endswith_iff artifact_path ".py") as Hs.
  destruct (Py.endswith artifact_path ".py").
  - split; [reflexivity |]. intros H. destruct H. now apply Hs.
  - split; [| reflexivity]. intros H. apply Hs in H. discriminate.
Qed.

End Validation.

(** ** Deleting, starting and stopping a serving *)

Section Actions.
Context (K : ServingConstants) (W : World).

Lemma delete_serving_rest_run (serving_id : option Z) (t : list event) :
  let r := {| req_method := HTTP_DELETE K;
              req_url := serving.serving_resource_url K W +:+ serving.str_id serving_id;
              req_data := None; req_headers := None |} in
  snd (serving._delete_serving_rest K W serving_id t) = t ++ [Sent r] /\
  (fst (serving._delete_serving_rest K W serving_id t) = Ok tt <->
   status_code (util_send_request W t r) = 200).
Proof.
  cbv zeta. unfold serving._delete_serving_rest, serving.send_request. run_M.
  match goal with
  | |- context [util_send_request W t ?r] =>
      set (request := r); set (response := util_send_request W t request)
  end.
  destruct (status_code response =? 200) eqn:E; cbn [negb fst snd].
  - apply Z.eqb_eq in E. now split.
  - apply Z.eqb_neq in E. destruct (json response) as [o|e].
    + destruct (util_parse_rest_error W o) as [[error_code error_msg] user_msg].
      cbn. split; [reflexivity |]. split; [discriminate | congruence].
    + cbn. split; [reflexivity |]. split; [discriminate | congruence].
Qed.

Lemma start_or_stop_serving_rest_run (serving_id : option Z) (action : string)
    (t : list event) :
  let r := {| req_method := HTTP_POST K;
              req_url := serving.serving_resource_url K W +:+
                         serving.str_id serving_id +:+
                         SERVING_START_OR_STOP_PATH_PARAM K +:+ action;
              req_data := None; req_headers := None |} in
  snd (serving._start_or_stop_serving_rest K W serving_id action t) = t ++ [Sent r] /\
  (fst (serving._start_or_stop_serving_rest K W serving_id action t) = Ok tt <->
   status_code (util_send_request W t r) = 200).
Proof.
  cbv zeta. unfold serving._start_or_stop_serving_rest, serving.send_request. run_M.
  rewrite <- !append_assoc.
  match goal with
  | |- context [util_send_request W t ?r] =>
      set (request := r); set (response := util_send_request W t request)
  end.
  destruct (status_code response =? 200) eqn:E; cbn [negb fst snd].
  - apply Z.eqb_eq in E. now split.
  - apply Z.eqb_neq in E. destruct (json response) as [o|e].
    + destruct (util_parse_rest_error W o) as [[error_code error_msg] user_msg].
      cbn. split; [reflexivity |]. split; [discriminate | congruence].
    + cbn. split; [reflexivity |]. split; [discriminate | congruence].
Qed.

(** The run of an action on a serving: lookup, message, request,
    message. *)
Lemma action_run (rest : option Z -> M unit) (before after : string)
    (serving_name : string) (t : list event) :
  (serving_id ← serving.get_id K W serving_name;
   print before [VStr serving_name] ;;
   rest serving_id ;;
   print after [VStr serving_name]) t =
  match fst (serving.get_id K W serving_name t) with
  | Raise e => (Raise e, t ++ [Sent (serving.servings_request K W)])
  | Ok serving_id =>
      match rest serving_id
              (t ++ [Sent (serving.servings_request K W);
                     Print before [VStr serving_name]]) with
      | (Ok _, t2) => (Ok tt, t2 ++ [Print after [VStr serving_name]])
      | (Raise e, t2) => (Raise e, t2)
      end
  end.
Proof.
  run_M. pose proof (get_id_trace K W serving_name t) as Ht.
  destruct (serving.get_id K W serving_name t) as [[serving_id|e] t'];
    cbn [fst snd] in *; subst t'; [| reflexivity].
  rewrite <- app_assoc. cbn [app].
  destruct (rest serving_id _) as [[[]|e] t2]; reflexivity.
Qed.

(** What an action sends and when it returns, from what its request
    helper does. *)
Lemma action_requests (rest : option Z -> M unit) (before after : string)
    (serving_name : string) (t : list event) (serving_id : option Z) (r : Request) :
  let t1 := t ++ [Sent (serving.servings_request K W);
                  Print before [VStr serving_name]] in
  snd (rest serving_id t1) = t1 ++ [Sent r] ->
  (fst (rest serving_id t1) = Ok tt <->
   status_code (util_send_request W t1 r) = 200) ->
  let run :=
    match rest serving_id t1 with
    | (Ok _, t2) => (Ok tt, t2 ++ [Print after [VStr serving_name]])
    | (Raise e, t2) => (Raise e, t2)
    end in
  requests_of (snd run) = requests_of t ++ [serving.servings_request K W; r] /\
  (fst run = Ok tt <-> status_code (util_send_request W t1 r) = 200).
Proof.
  cbv zeta. intros Hsnd Hfst.
  destruct (rest serving_id _) as [[[]|e] t2]; cbn [fst snd] in *; subst t2.
  - split; [| tauto].
    rewrite !requests_of_app. cbn. now rewrite app_nil_r, <- app_assoc.
  - split; [| exact Hfst].
    rewrite !requests_of_app. cbn. now rewrite <- app_assoc.
Qed.

(** X15. [delete(serving_name)] first looks the serving up. When the
    lookup raises, the exception is passed on and nothing else is sent.
    When it returns an id, one DELETE is sent, to the URL of the servings
    followed by the id, and [delete] returns exactly when the answer has
    status 200. *)
Theorem delete_flow (serving_name : string) (t : list event) :
  match fst (serving.get_id K W serving_name t) with
  | Raise e =>
      serving.delete K W serving_name t =
        (Raise e, t ++ [Sent (serving.servings_request K W)])
  | Ok serving_id =>
      let r := {| req_method := HTTP_DELETE K;
                  req_url := serving.serving_resource_url K W +:+
                             serving.str_id serving_id;
                  req_data := None; req_headers := None |} in
      let t1 := t ++ [Sent (serving.servings_request K W);
                      Print "Deleting serving with name: {}..." [VStr serving_name]] in
      requests_of (snd (serving.delete K W serving_name t)) =
        requests_of t ++ [serving.servings_request K W; r] /\
      (fst (serving.delete K W serving_name t) = Ok tt <->
       status_code (util_send_request W t1 r) = 200)
  end.
Proof.
  unfold serving.delete.
  rewrite (action_run (serving._delete_serving_rest K W)).
  destruct (fst (serving.get_id K W serving_name t)) as [serving_id|e];
    [| reflexivity].
  cbv zeta. apply action_requests; apply delete_serving_rest_run.
Qed.

(** X16. [start] and [stop] go the same way, with one POST to the URL of
    the serving followed by the action, [START] for the one and [STOP]
    for the other. *)
Theorem start_stop_flow (serving_name : string) (t : list event) :
  let request action serving_id :=
    {| req_method := HTTP_POST K;
       req_url := serving.serving_resource_url K W +:+ serving.str_id serving_id +:+
                  SERVING_START_OR_STOP_PATH_PARAM K +:+ action;
       req_data := None; req_headers := None |} in
  match fst (serving.get_id K W serving_name t) with
  | Raise e =>
      serving.start K W serving_name t =
        (Raise e, t ++ [Sent (serving.servings_request K W)]) /\
      serving.stop K W serving_name t =
        (Raise e, t ++ [Sent (serving.servings_request K W)])
  | Ok serving_id =>
      requests_of (snd (serving.start K W serving_name t)) =
        requests_of t ++ [serving.servings_request K W;
                          request (SERVING_ACTION_START K) serving_id] /\
      (fst (serving.start K W serving_name t) = Ok tt <->
       status_code
         (util_send_request W
            (t ++ [Sent (serving.servings_request K W);
                   Print "Starting serving with name: {}..." [VStr serving_name]])
            (request (SERVING_ACTION_START K) serving_id)) = 200) /\
      requests_of (snd (serving.stop K W serving_name t)) =
        requests_of t ++ [serving.servings_request K W;
                          request (SERVING_ACTION_STOP K) serving_id] /\
      (fst (serving.stop K W serving_name t) = Ok tt <->
       status_code
         (util_send_request W
            (t ++ [Sent (serving.servings_request K W);
                   Print "Stopping serving with name: {}..." [VStr serving_name]])
            (request (SERVING_ACTION_STOP K) serving_id)) = 200)
  end.
Proof.
  cbv zeta. unfold serving.start, serving.stop.
  rewrite (action_run (fun serving_id =>
             serving._start_or_stop_serving_rest K W serving_id (SERVING_ACTION_START K))).
  rewrite (action_run (fun serving_id =>
             serving._start_or_stop_serving_rest K W serving_id (SERVING_ACTION_STOP K))).
  destruct (fst (serving.get_id K W serving_name t)) as [serving_id|e];
    [| now split].
  pose proof (action_requests
                (fun serving_id =>
                   serving._start_or_stop_serving_rest K W serving_id
                     (SERVING_ACTION_START K))
                "Starting serving with name: {}..."
                "Serving with name: {} successfully started" serving_name t serving_id
                _ (proj1 (start_or_stop_serving_rest_run _ _ _))
                  (proj2 (start_or_stop_serving_rest_run _ _ _))) as [H1 H2].
  pose proof (action_requests
                (fun serving_id =>
                   serving._start_or_stop_serving_rest K W serving_id
                     (SERVING_ACTION_STOP K))
                "Stopping serving with name: {}..."
                "Serving with name: {} successfully stopped" serving_name t serving_id
                _ (proj1 (start_or_stop_serving_rest_run _ _ _))
                  (proj2 (start_or_stop_serving_rest_run _ _ _))) as [H3 H4].
  repeat split; first [apply H1 | apply H2 | apply H3 | apply H4].
Qed.

End Actions.

(** ** Creating and updating a serving *)

Section Create_or_update.
Context (K : ServingConstants) (W : World).

Lemma create_or_update_serving_rest_run (serving_name model_path : string)
    (model_version : value) (model_server : string) (kfserving : bool)
    (batching_enabled topic_name num_partitions num_replicas : value)
    (serving_id : option Z) (instances : value) (t : list event) :
  let serving_tool :=
    if kfserving then SERVING_TOOL_KFSERVING K else SERVING_TOOL_DEFAULT K in
  let kafka_topic_dto : gmap string value :=
    <[JSON_KAFKA_NUM_REPLICAS K := num_replicas]>
      (<[JSON_KAFKA_NUM_PARTITIONS K := num_partitions]>
         (<[JSON_KAFKA_TOPIC_NAME K := topic_name]> ∅)) in
  let base : gmap string value :=
    <[JSON_SERVING_REQUESTED_INSTANCES K := instances]>
      (<[JSON_SERVING_KAFKA_TOPIC_DTO K := VDict kafka_topic_dto]>
         (<[JSON_SERVING_NAME K := VStr serving_name]>
            (<[JSON_SERVING_TOOL K := VStr serving_tool]>
               (<[JSON_MODEL_SERVER K := VStr model_server]>
                  (<[JSON_SERVING_ARTIFACT_PATH K := VStr model_path]>
                     (<[JSON_SERVING_MODEL_VERSION K := model_version]> ∅)))))) in
  let with_id :=
    match serving_id with
    | Some n => <[JSON_SERVING_ID K := VInt n]> base
    | None => base
    end in
  let body :=
    if String.eqb model_server (MODEL_SERVER_TENSORFLOW_SERVING K)
    then <[JSON_SERVING_BATCHING_ENABLED K := batching_enabled]> with_id
    else with_id in
  let r := {| req_method := HTTP_PUT K;
              req_url := serving.serving_resource_url K W;
              req_data := Some (json_dumps W (VDict body));
              req_headers := Some {[ HTTP_CONTENT_TYPE K := HTTP_APPLICATION_JSON K ]} |} in
  snd (serving._create_or_update_serving_rest K W serving_name model_path
         model_version model_server kfserving batching_enabled topic_name
         num_partitions num_replicas serving_id instances t) = t ++ [Sent r] /\
  (fst (serving._create_or_update_serving_rest K W serving_name model_path
          model_version model_server kfserving batching_enabled topic_name
          num_partitions num_replicas serving_id instances t) = Ok tt <->
   status_code (util_send_request W t r) = 200 \/
   status_code (util_send_request W t r) = 201).
Proof.
  cbv zeta. unfold serving._create_or_update_serving_rest, serving.send_request.
  run_M.
  match goal with
  | |- context [util_send_request W t ?r] =>
      set (request := r); set (response := util_send_request W t request)
  end.
  destruct (Z.eqb_spec (status_code response) 201) as [E1|E1];
    destruct (Z.eqb_spec (status_code response) 200) as [E2|E2];
    cbn [negb andb fst snd];
    try (split; [reflexivity |]; split; [tauto | reflexivity]).
  destruct (json response) as [o|e].
  - destruct (util_parse_rest_error W o) as [[error_code error_msg] user_msg].
    cbn. split; [reflexivity |]. split; [discriminate | tauto].
  - cbn. split; [reflexivity |]. split; [discriminate | tauto].
Qed.

Ltac distinct_keys :=
  repeat match goal with
         | H : NoDup (_ :: _) |- _ => apply NoDup_cons in H as [? H]
         end;
  repeat match goal with
         | H : _ ∉ _ :: _ |- _ => apply not_elem_of_cons in H as [? H]
         end.

(** X18. The PUT of [_create_or_update_serving_rest], the keys of the
    JSON body being distinct: the body holds the name, the artifact, the
    model version, the model server, the serving tool ([KFSERVING] or the
    default), the number of instances and the Kafka topic; it holds the id
    exactly when an id is given (an update), and the batching flag exactly
    for TensorFlow Serving. *)
Theorem create_or_update_serving_rest_body (serving_name model_path : string)
    (model_version : value) (model_server : string) (kfserving : bool)
    (batching_enabled topic_name num_partitions num_replicas : value)
    (serving_id : option Z) (instances : value) (t : list event) :
  NoDup [JSON_SERVING_MODEL_VERSION K; JSON_SERVING_ARTIFACT_PATH K;
         JSON_MODEL_SERVER K; JSON_SERVING_TOOL K; JSON_SERVING_NAME K;
         JSON_SERVING_KAFKA_TOPIC_DTO K; JSON_SERVING_REQUESTED_INSTANCES K;
         JSON_SERVING_ID K; JSON_SERVING_BATCHING_ENABLED K] ->
  NoDup [JSON_KAFKA_TOPIC_NAME K; JSON_KAFKA_NUM_PARTITIONS K;
         JSON_KAFKA_NUM_REPLICAS K] ->
  exists (body kafka_topic_dto : gmap string value) (r : Request),
    snd (serving._create_or_update_serving_rest K W serving_name model_path
           model_version model_server kfserving batching_enabled topic_name
           num_partitions num_replicas serving_id instances t) = t ++ [Sent r] /\
    req_method r = HTTP_PUT K /\
    req_url r = serving.serving_resource_url K W /\
    req_headers r = Some {[ HTTP_CONTENT_TYPE K := HTTP_APPLICATION_JSON K ]} /\
    req_data r = Some (json_dumps W (VDict body)) /\
    body !! JSON_SERVING_NAME K = Some (VStr serving_name) /\
    body !! JSON_SERVING_ARTIFACT_PATH K = Some (VStr model_path) /\
    body !! JSON_SERVING_MODEL_VERSION K = Some model_version /\
    body !! JSON_MODEL_SERVER K = Some (VStr model_server) /\
    body !! JSON_SERVING_TOOL K =
      Some (VStr (if kfserving then SERVING_TOOL_KFSERVING K
                  else SERVING_TOOL_DEFAULT K)) /\
    body !! JSON_SERVING_REQUESTED_INSTANCES K = Some instances /\
    body !! JSON_SERVING_ID K = VInt <$> serving_id /\
    body !! JSON_SERVING_BATCHING_ENABLED K =
      (if String.eqb model_server (MODEL_SERVER_TENSORFLOW_SERVING K)
       then Some batching_enabled else None) /\
    body !! JSON_SERVING_KAFKA_TOPIC_DTO K = Some (VDict kafka_topic_dto) /\
    kafka_topic_dto !! JSON_KAFKA_TOPIC_NAME K = Some topic_name /\
    kafka_topic_dto !! JSON_KAFKA_NUM_PARTITIONS K = Some num_partitions /\
    kafka_topic_dto !! JSON_KAFKA_NUM_REPLICAS K = Some num_replicas.
Proof.
  intros Hkeys Hkafka. distinct_keys.
  destruct (create_or_update_serving_rest_run serving_name model_path model_version
              model_server kfserving batching_enabled topic_name num_partitions
              num_replicas serving_id instances t) as [Hsnd _].
  cbv zeta in Hsnd.
  eexists _, _, _. split; [exact Hsnd |]. cbn [req_method req_url req_headers req_data].
  do 4 (split; [reflexivity |]).
  destruct serving_id as [n|];
    destruct (String.eqb model_server (MODEL_SERVER_TENSORFLOW_SERVING K));
    (repeat split); try (by simplify_map_eq).
Qed.

Lemma create_or_update_run (serving_name artifact_path : string)
    (model_version : value) (model_server : option string) (kfserving : bool)
    (batching_enabled topic_name num_partitions num_replicas instances : value)
    (t : list event) :
  let path := hdfs_expand_path W artifact_path in
  let server :=
    match model_server with
    | Some model_server => model_server
    | None => if Py.endswith path ".py" then MODEL_SERVER_FLASK K
              else MODEL_SERVER_TENSORFLOW_SERVING K
    end in
  let t0 := t ++ [Sent (serving.servings_request K W)] in
  let t1 :=
    match model_server with
    | Some _ => t0
    | None => t0 ++ [Print "Inferring model server from artifact files: {}"
                       [VStr server]]
    end in
  serving.create_or_update K W serving_name artifact_path model_version model_server
    kfserving batching_enabled topic_name num_partitions num_replicas instances t =
  match fst (serving.get_id K W serving_name t) with
  | Raise e => (Raise e, t0)
  | Ok serving_id =>
      match serving._validate_user_serving_input K W serving_name path model_version
              server kfserving batching_enabled topic_name num_partitions
              num_replicas instances with
      | Raise e => (Raise e, t1)
      | Ok _ =>
          match serving._create_or_update_serving_rest K W serving_name
                  (hdfs_get_plain_path W path) model_version server kfserving
                  batching_enabled topic_name num_partitions num_replicas serving_id
                  instances
                  (t1 ++ [Print "Creating serving {} for artifact {} ..."
                            [VStr serving_name; VStr (hdfs_get_plain_path W path)]]) with
          | (Ok _, t2) =>
              (Ok tt, t2 ++ [Print "Serving {} successfully created" [VStr serving_name]])
          | (Raise e, t2) => (Raise e, t2)
          end
      end
  end.
Proof.
  cbv zeta. unfold serving.create_or_update. run_M.
  pose proof (get_id_trace K W serving_name t) as Ht.
  destruct (serving.get_id K W serving_name t) as [[serving_id|e] t'];
    cbn [fst snd] in *; subst t'; [| reflexivity].
  destruct model_server as [model_server|].
  - destruct (serving._validate_user_serving_input K W serving_name _ model_version
                model_server kfserving batching_enabled topic_name num_partitions
                num_replicas instances) as [[]|e]; [| reflexivity].
    destruct (serving._create_or_update_serving_rest K W _ _ _ _ _ _ _ _ _ _ _ _)
      as [[[]|e] t2]; reflexivity.
  - unfold serving._detect_model_server. run_M.
    destruct (serving._validate_user_serving_input K W serving_name _ model_version
                _ kfserving batching_enabled topic_name num_partitions
                num_replicas instances) as [[]|e]; [| reflexivity].
    destruct (serving._create_or_update_serving_rest K W _ _ _ _ _ _ _ _ _ _ _ _)
      as [[[]|e] t2]; reflexivity.
Qed.

(** X19. [create_or_update], once [get_id] has returned: when the
    validation refuses the input, with the model server given or else
    inferred from the artifact, its exception is raised and no PUT is
    sent; when it accepts, one PUT is sent by
    [_create_or_update_serving_rest] with the id [get_id] returned (so an
    existing serving of that name is updated, and a serving is created
    when the id is [None]), and [create_or_update] returns exactly when
    the answer has status 200 or 201. *)
Theorem create_or_update_flow (serving_name artifact_path : string)
    (model_version : value) (model_server : option string) (kfserving : bool)
    (batching_enabled topic_name num_partitions num_replicas instances : value)
    (serving_id : option Z) (t : list event) :
  fst (serving.get_id K W serving_name t) = Ok serving_id ->
  let path := hdfs_expand_path W artifact_path in
  let server :=
    match model_server with
    | Some model_server => model_server
    | None => if Py.endswith path ".py" then MODEL_SERVER_FLASK K
              else MODEL_SERVER_TENSORFLOW_SERVING K
    end in
  let run :=
    serving.create_or_update K W serving_name artifact_path model_version
      model_server kfserving batching_enabled topic_name num_partitions
      num_replicas instances t in
  match serving._validate_user_serving_input K W serving_name path model_version
          server kfserving batching_enabled topic_name num_partitions
          num_replicas instances with
  | Raise e =>
      fst run = Raise e /\
      requests_of (snd run) = requests_of t ++ [serving.servings_request K W]
  | Ok _ =>
      exists (r : Request) (t1 : list event),
        requests_of t1 = requests_of t ++ [serving.servings_request K W] /\
        snd (serving._create_or_update_serving_rest K W serving_name
               (hdfs_get_plain_path W path) model_version server kfserving
               batching_enabled topic_name num_partitions num_replicas serving_id
               instances t1) = t1 ++ [Sent r] /\
        req_method r = HTTP_PUT K /\
        requests_of (snd run) = requests_of t ++ [serving.servings_request K W; r] /\
        (fst run = Ok tt <->
         status_code (util_send_request W t1 r) = 200 \/
         status_code (util_send_request W t1 r) = 201)
  end.
Proof.
  intros Hid. cbv zeta. rewrite create_or_update_run. cbv zeta. rewrite Hid.
  destruct (serving._validate_user_serving_input K W serving_name _ model_version
              _ kfserving batching_enabled topic_name num_partitions
              num_replicas instances) as [[]|e].
  - match goal with
    | |- context [serving._create_or_update_serving_rest K W ?a1 ?a2 ?a3 ?a4 ?a5 ?a6
                    ?a7 ?a8 ?a9 ?a10 ?a11 ?t1] =>
        destruct (create_or_update_serving_rest_run a1 a2 a3 a4 a5 a6 a7 a8 a9 a10
                    a11 t1) as [Hsnd Hfst];
        cbv zeta in Hsnd, Hfst;
        eexists _, t1; split; [| split; [exact Hsnd | split; [reflexivity |]]]
    end.
    + destruct model_server; rewrite !requests_of_app; cbn;
        now rewrite ?app_nil_r.
    + destruct (serving._create_or_update_serving_rest K W _ _ _ _ _ _ _ _ _ _ _ _)
        as [[[]|e] t2]; cbn [fst snd] in *; subst t2.
      * split; [| tauto].
        destruct model_server; rewrite !requests_of_app; cbn;
          now rewrite ?app_nil_r, <- ?app_assoc.
      * split; [| exact Hfst].
        destruct model_server; rewrite !requests_of_app; cbn;
          now rewrite ?app_nil_r, <- ?app_assoc.
  - cbn [fst snd]. split; [reflexivity |].
    destruct model_server; rewrite !requests_of_app; cbn; now rewrite ?app_nil_r.
Qed.

(** X20. With KFServing, [create_or_update] refuses a Flask model (also
    one inferred from an artifact in [.py]) and a TensorFlow Serving
    model with batching: once [get_id] has returned, it raises
    [ValueError] and sends no PUT. *)
Theorem create_or_update_refuses_kfserving (serving_name artifact_path : string)
    (model_version : value) (model_server : option string)
    (batching_enabled topic_name num_partitions num_replicas instances : value)
    (serving_id : option Z) (t : list event) :
  fst (serving.get_id K W serving_name t) = Ok serving_id ->
  let path := hdfs_expand_path W artifact_path in
  let server :=
    match model_server with
    | Some model_server => model_server
    | None => if Py.endswith path ".py" then MODEL_SERVER_FLASK K
              else MODEL_SERVER_TENSORFLOW_SERVING K
    end in
  server = MODEL_SERVER_FLASK K \/
  (server = MODEL_SERVER_TENSORFLOW_SERVING K /\ truthy batching_enabled = true) ->
  let run :=
    serving.create_or_update K W serving_name artifact_path model_version
      model_server true batching_enabled topic_name num_partitions
      num_replicas instances t in
  raised (fst run) = Some ValueError /\
  requests_of (snd run) = requests_of t ++ [serving.servings_request K W].
Proof.
  intros Hid. cbv zeta. intros Hserver.
  rewrite create_or_update_run. cbv zeta. rewrite Hid.
  match goal with
  | |- context [serving._validate_user_serving_input K W ?a1 ?a2 ?a3 ?a4 ?a5 ?a6 ?a7
                  ?a8 ?a9 ?a10] =>
      pose proof (validate_raises_ValueError K W a1 a2 a3 a4 a5 a6 a7 a8 a9 a10) as Hcls;
      destruct (serving._validate_user_serving_input K W a1 a2 a3 a4 a5 a6 a7 a8 a9 a10)
        as [[]|e] eqn:E
  end.
  - exfalso. revert E.
    unfold serving._validate_user_serving_input, serving.check.
    unfold mbind, serving.result_bind.
    destruct Hserver as [-> | [-> Hb]].
    + rewrite String.eqb_refl. cbn [andb].
      repeat match goal with
             | |- context [if ?c then _ else _] => destruct c; try discriminate
             end.
    + rewrite String.eqb_refl, Hb. cbn [andb].
      repeat match goal with
             | |- context [if ?c then _ else _] => destruct c; try discriminate
             end.
  - cbn [fst snd raised]. rewrite Hcls. split; [reflexivity |].
    destruct model_server; rewrite !requests_of_app; cbn; now rewrite ?app_nil_r.
Qed.

End Create_or_update.

(** ** Well-typed listings *)

Section Listings.
Context (K : ServingConstants) (W : World).

Lemma present_lookup (d : gmap string value) (k : string) :
  listing.present d k = true -> exists v, d !! k = Some v.
Proof. unfold listing.present. destruct (d !! k) as [v|]; [eauto | discriminate]. Qed.

Lemma serving_init_builds (d : gmap string value) :
  listing.well_typed K d = true -> exists s, listing.built K W d s.
Proof.
  unfold listing.built, listing.well_typed, listing.payload_name, listing.payload_id.
  destruct (d !! JSON_SERVING_NAME K) as [[| | |n| |]|] eqn:En; try discriminate.
  destruct (d !! JSON_SERVING_ID K) as [[| |i| | |]|] eqn:Ei; try discriminate.
  cbn [forallb]. intros H.
  repeat match type of H with
         | _ && _ = true => apply andb_true_iff in H as [?P H];
                            apply present_lookup in P as [? ?]
         end.
  unfold serving.Serving_init, getitem. unfold mbind, serving.result_bind.
  repeat match goal with
         | E : d !! ?k = Some _ |- context [d !! ?k] => rewrite E
         end.
  eexists. split; [reflexivity |]. split; reflexivity.
Qed.

Lemma parse_well_typed (ds : list (gmap string value)) :
  Forall (fun d => listing.well_typed K d = true) ds ->
  exists servings,
    serving._parse_json_servings K W (VList (VDict <$> ds)) = Ok servings /\
    Forall2 (listing.built K W) ds servings.
Proof.
  unfold serving._parse_json_servings. cbn [serving.iterate].
  unfold mbind at 1, serving.result_bind.
  induction ds as [|d ds IH]; intros Hall.
  - exists []. split; [reflexivity | constructor].
  - inversion Hall as [|? ? Hd Hds]; subst.
    destruct (serving_init_builds d Hd) as [s Hs].
    destruct (IH Hds) as (servings & Hparse & Hrel).
    exists (s :: servings). split; [| now constructor].
    cbn [fmap list_fmap serving.mapM]. unfold mbind, serving.result_bind.
    destruct Hs as [-> _]. fold (@fmap list _ _ _ VDict ds). now rewrite Hparse.
Qed.

Lemma find_built (serving_name : string) (ds : list (gmap string value))
    (servings : list serving.Serving) :
  Forall2 (listing.built K W) ds servings ->
  match List.find (listing.has_name K serving_name) ds with
  | Some d =>
      exists s,
        List.find (fun s => String.eqb (serving.name s) serving_name) servings = Some s /\
        listing.built K W d s
  | None =>
      List.find (fun s => String.eqb (serving.name s) serving_name) servings = None
  end.
Proof.
  induction 1 as [|d s ds servings Hds _ IH]; [reflexivity |].
  cbn [List.find]. unfold listing.has_name at 1.
  destruct Hds as (Hinit & Hname & Hid). rewrite Hname.
  destruct (String.eqb (serving.name s) serving_name); [| exact IH].
  exists s. now repeat split.
Qed.

Lemma get_all_of_listing (t : list event) (ds : list (gmap string value)) :
  status_code (util_send_request W t (serving.servings_request K W)) = 200 ->
  json (util_send_request W t (serving.servings_request K W)) =
    Ok (VList (VDict <$> ds)) ->
  Forall (fun d => listing.well_typed K d = true) ds ->
  exists servings,
    fst (serving.get_all K W t) = Ok servings /\ Forall2 (listing.built K W) ds servings.
Proof.
  intros Hstatus Hjson Hall.
  destruct (parse_well_typed ds Hall) as (servings & Hparse & Hrel).
  exists servings. split; [| exact Hrel].
  rewrite get_all_run. cbv zeta. cbn [fst]. now rewrite Hjson, Hstatus.
Qed.

Lemma find_serving_result (serving_name : string) (servings : list serving.Serving) :
  serving._find_serving_with_name serving_name servings =
    match List.find (fun s => String.eqb (serving.name s) serving_name) servings with
    | Some s => Ok s
    | None =>
        Raise (Exn ServingNotFound
                 [VStr serving_name;
                  VStr (Py.str_join "," (map serving.name servings))])
    end.
Proof.
  unfold serving._find_serving_with_name, serving._find_serving_with_name_run.
  now rewrite find_loop_result.
Qed.

(** X6. When the backend answers the request for the servings with
    status 200 and a well-typed listing (a list of dictionaries with the
    ten keys, the names strings and the ids integers), [get_id] returns
    the id of the first serving of the listing with the name, and [None]
    when the listing has none. *)
Theorem get_id_of_listing (serving_name : string) (t : list event)
    (ds : list (gmap string value)) :
  status_code (util_send_request W t (serving.servings_request K W)) = 200 ->
  json (util_send_request W t (serving.servings_request K W)) =
    Ok (VList (VDict <$> ds)) ->
  Forall (fun d => listing.well_typed K d = true) ds ->
  fst (serving.get_id K W serving_name t) =
    Ok (List.find (listing.has_name K serving_name) ds ≫= listing.payload_id K).
Proof.
  intros Hstatus Hjson Hall.
  destruct (get_all_of_listing t ds Hstatus Hjson Hall) as (servings & Hget & Hrel).
  rewrite get_id_run. cbn [fst]. rewrite Hget, find_serving_result.
  pose proof (find_built serving_name ds servings Hrel) as Hfind.
  destruct (List.find (listing.has_name K serving_name) ds) as [d|].
  - destruct Hfind as (s & -> & _ & _ & Hid). cbn. now rewrite Hid.
  - rewrite Hfind. reflexivity.
Qed.

(** X8. On a well-typed listing answered with status 200, [exists] and
    the accessors agree: when the listing has a serving with the name,
    [exists] is [True] and each accessor returns what the payload of the
    first such serving holds under its key; when it has none, [exists] is
    [False] and the accessors raise [ServingNotFound]. *)
Theorem accessors_agree_with_exists (serving_name : string) (t : list event)
    (ds : list (gmap string value)) :
  status_code (util_send_request W t (serving.servings_request K W)) = 200 ->
  json (util_send_request W t (serving.servings_request K W)) =
    Ok (VList (VDict <$> ds)) ->
  Forall (fun d => listing.well_typed K d = true) ds ->
  match List.find (listing.has_name K serving_name) ds with
  | Some d =>
      fst (serving.exists_ K W serving_name t) = Ok true /\
      fst (serving.get_artifact_path K W serving_name t) =
        getitem d (JSON_SERVING_ARTIFACT_PATH K) /\
      fst (serving.get_model_server K W serving_name t) =
        getitem d (JSON_MODEL_SERVER K) /\
      fst (serving.get_serving_tool K W serving_name t) =
        getitem d (JSON_SERVING_TOOL K) /\
      fst (serving.get_version K W serving_name t) =
        getitem d (JSON_SERVING_MODEL_VERSION K) /\
      fst (serving.get_status K W serving_name t) =
        getitem d (JSON_SERVING_STATUS K)
  | None =>
      fst (serving.exists_ K W serving_name t) = Ok false /\
      raised (fst (serving.get_artifact_path K W serving_name t)) = Some ServingNotFound /\
      raised (fst (serving.get_model_server K W serving_name t)) = Some ServingNotFound /\
      raised (fst (serving.get_serving_tool K W serving_name t)) = Some ServingNotFound /\
      raised (fst (serving.get_version K W serving_name t)) = Some ServingNotFound /\
      raised (fst (serving.get_status K W serving_name t)) = Some ServingNotFound
  end.
Proof.
  intros Hstatus Hjson Hall.
  destruct (get_all_of_listing t ds Hstatus Hjson Hall) as (servings & Hget & Hrel).
  unfold serving.get_artifact_path, serving.get_model_server,
    serving.get_serving_tool, serving.get_version, serving.get_status.
  rewrite exists_run, get_id_run, !accessor_run. cbn [fst].
  rewrite Hget, find_serving_result.
  pose proof (find_built serving_name ds servings Hrel) as Hfind.
  destruct (List.find (listing.has_name K serving_name) ds) as [d|].
  - destruct Hfind as (s & -> & Hinit & _ & _).
    apply serving_init_ok_inv in Hinit
      as (d' & [= <-] & Hst & Hart & _ & _ & Hms & Htool & Hver & _).
    unfold getitem. rewrite Hst, Hart, Hms, Htool, Hver. cbn. repeat split.
  - rewrite Hfind. cbn. repeat split.
Qed.

(** X9. For a well-typed payload, [Serving(serving_json)] is built, and
    each attribute of the serving is what the payload holds under the key
    of the attribute; [kafka_topic_dto] is set exactly when the payload
    has the key of the Kafka topic. *)
Theorem serving_init_reads_keys (d : gmap string value) :
  listing.well_typed K d = true ->
  exists s : serving.Serving,
    serving.Serving_init K W (VDict d) = Ok s /\
    d !! JSON_SERVING_STATUS K = Some (serving.status s) /\
    d !! JSON_SERVING_ARTIFACT_PATH K = Some (serving.artifact_path s) /\
    d !! JSON_SERVING_NAME K = Some (VStr (serving.name s)) /\
    d !! JSON_SERVING_CREATOR K = Some (serving.creator s) /\
    d !! JSON_MODEL_SERVER K = Some (serving.model_server s) /\
    d !! JSON_SERVING_TOOL K = Some (serving.serving_tool s) /\
    d !! JSON_SERVING_MODEL_VERSION K = Some (serving.model_version s) /\
    d !! JSON_SERVING_CREATED K = Some (serving.created s) /\
    d !! JSON_SERVING_REQUESTED_INSTANCES K = Some (serving.requested_instances s) /\
    d !! JSON_SERVING_ID K = Some (VInt (serving.id s)) /\
    serving.kafka_topic_dto s =
      KafkaTopicDTO W <$> d !! JSON_SERVING_KAFKA_TOPIC_DTO K.
Proof.
  intros Hd. destruct (serving_init_builds d Hd) as (s & Hinit & _ & _).
  exists s. split; [exact Hinit |].
  apply serving_init_ok_inv in Hinit as (d' & [= <-] & H). exact H.
Qed.

(** X17. When a well-typed listing, answered with status 200, has no
    serving with the name, [delete], [start] and [stop] do not stop at
    the missing serving: [get_id] gives [None], and after the GET of the
    listing the DELETE, or the POST, is sent for the serving [None].
    These two are the only requests. *)
Theorem actions_on_unknown_name (serving_name : string) (t : list event)
    (ds : list (gmap string value)) :
  status_code (util_send_request W t (serving.servings_request K W)) = 200 ->
  json (util_send_request W t (serving.servings_request K W)) =
    Ok (VList (VDict <$> ds)) ->
  Forall (fun d => listing.well_typed K d = true) ds ->
  Forall (fun d => listing.has_name K serving_name d = false) ds ->
  requests_of (snd (serving.delete K W serving_name t)) =
    requests_of t ++
    [serving.servings_request K W;
     {| req_method := HTTP_DELETE K;
        req_url := serving.serving_resource_url K W +:+ "None";
        req_data := None; req_headers := None |}] /\
  requests_of (snd (serving.start K W serving_name t)) =
    requests_of t ++
    [serving.servings_request K W;
     {| req_method := HTTP_POST K;
        req_url := serving.serving_resource_url K W +:+ "None" +:+
                   SERVING_START_OR_STOP_PATH_PARAM K +:+ SERVING_ACTION_START K;
        req_data := None; req_headers := None |}] /\
  requests_of (snd (serving.stop K W serving_name t)) =
    requests_of t ++
    [serving.servings_request K W;
     {| req_method := HTTP_POST K;
        req_url := serving.serving_resource_url K W +:+ "None" +:+
                   SERVING_START_OR_STOP_PATH_PARAM K +:+ SERVING_ACTION_STOP K;
        req_data := None; req_headers := None |}].
Proof.
  intros Hstatus Hjson Hall Hnone.
  assert (Hid : fst (serving.get_id K W serving_name t) = Ok None).
  { destruct (get_all_of_listing t ds Hstatus Hjson Hall) as (servings & Hget & Hrel).
    rewrite get_id_run. cbn [fst]. rewrite Hget, find_serving_result.
    pose proof (find_built serving_name ds servings Hrel) as Hfind.
    assert (Hno : List.find (listing.has_name K serving_name) ds = None).
    { clear -Hnone. induction Hnone as [|d ds Hd _ IH]; [reflexivity |].
      cbn [List.find]. now rewrite Hd. }
    rewrite Hno in Hfind. now rewrite Hfind. }
  unfold serving.delete, serving.start, serving.stop.
  rewrite (action_run K W (serving._delete_serving_rest K W)).
  rewrite (action_run K W (fun serving_id =>
             serving._start_or_stop_serving_rest K W serving_id (SERVING_ACTION_START K))).
  rewrite (action_run K W (fun serving_id =>
             serving._start_or_stop_serving_rest K W serving_id (SERVING_ACTION_STOP K))).
  rewrite Hid.
  split; [| split].
  - match goal with
    | |- context [serving._delete_serving_rest K W None ?t1] =>
        destruct (delete_serving_rest_run K W None t1) as [Hsnd _];
        destruct (serving._delete_serving_rest K W None t1) as [[[]|e] t2]
    end; cbn [fst snd] in *; subst t2;
      rewrite !requests_of_app; cbn; rewrite ?app_nil_r, <- ?app_assoc;
      reflexivity.
  - match goal with
    | |- context [serving._start_or_stop_serving_rest K W None ?a ?t1] =>
        destruct (start_or_stop_serving_rest_run K W None a t1) as [Hsnd _];
        destruct (serving._start_or_stop_serving_rest K W None a t1) as [[[]|e] t2]
    end; cbn [fst snd] in *; subst t2;
      rewrite !requests_of_app; cbn; rewrite ?app_nil_r, <- ?app_assoc;
      reflexivity.
  - match goal with
    | |- context [serving._start_or_stop_serving_rest K W None ?a ?t1] =>
        destruct (start_or_stop_serving_rest_run K W None a t1) as [Hsnd _];
        destruct (serving._start_or_stop_serving_rest K W None a t1) as [[[]|e] t2]
    end; cbn [fst snd] in *; subst t2;
      rewrite !requests_of_app; cbn; rewrite ?app_nil_r, <- ?app_assoc;
      reflexivity.
Qed.

End Listings.

(** ** The further properties at work *)

Lemma absent_char (s : string) (c : ascii) :
  ~ In c (list_ascii_of_string s) -> forall a b, s <> a +:+ String c b.
Proof.
  intros Hc a b ->. apply Hc. clear Hc.
  induction a as [|x a IH]; [now left |].
  rewrite append_cons. now right.
Qed.

Lemma absent_internal (s : string) :
  ~ In "I"%char (list_ascii_of_string s) ->
  forall a b, s <> a +:+ "INTERNAL://" +:+ b.
Proof. intros Hc a b. exact (absent_char s "I" Hc a ("NTERNAL://" +:+ b)). Qed.

Ltac no_such_char :=
  cbn; intros H;
  repeat (destruct H as [H | H]; [discriminate |]); exact H.

Lemma broker_endpoints_unchanged_witness :
  kafka.get_broker_endpoints
    (sample.world {[ "KAFKA_BROKERS" := "10.0.2.15:9091" ]}
       sample.empty_backend sample.no_server) = Ok "10.0.2.15:9091".
Proof.
  apply broker_endpoints_unchanged.
  - vm_compute. reflexivity.
  - apply absent_internal. no_such_char.
Defined.

Lemma broker_endpoints_list_of_hosts_witness :
  kafka.get_broker_endpoints_list
    (sample.world sample.brokers sample.empty_backend sample.no_server) =
  Ok ["10.0.2.15:9091"; "10.0.2.16:9091"].
Proof.
  apply broker_endpoints_list_of_hosts.
  - discriminate.
  - repeat constructor;
      first [apply absent_internal; no_such_char
            | apply (absent_char _ ","); no_such_char].
  - vm_compute. reflexivity.
Defined.

Lemma broker_endpoints_list_pieces_witness :
  exists (endpoints : string) (l : list string),
    kafka.get_broker_endpoints
      (sample.world sample.brokers sample.empty_backend sample.no_server) = Ok endpoints /\
    kafka.get_broker_endpoints_list
      (sample.world sample.brokers sample.empty_backend sample.no_server) = Ok l /\
    Forall (fun p => forall a b, p <> a +:+ "," +:+ b) l /\
    length l = S (count_occ ascii_dec (list_ascii_of_string endpoints) ","%char).
Proof.
  apply (broker_endpoints_list_pieces
           (sample.world sample.brokers sample.empty_backend sample.no_server)
           "INTERNAL://10.0.2.15:9091,INTERNAL://10.0.2.16:9091").
  vm_compute. reflexivity.
Defined.

Lemma lookups_raise_on_failure_witness :
  raised (fst (serving.exists_ sample.K sample_backend.W_failing "mnist" []))
    = Some RestAPIError.
Proof.
  apply (lookups_raise_on_failure sample.K sample_backend.W_failing "mnist" []
           (VDict ∅)).
  - vm_compute. discriminate.
  - reflexivity.
Defined.

Lemma name_pattern_accepts_alphanumeric_witness :
  re.match_ serving.name_pattern "irisFlowerClassifier" = true.
Proof.
  apply name_pattern_accepts_alphanumeric.
  - discriminate.
  - repeat constructor.
Defined.

Lemma create_or_update_serving_rest_body_witness :
  exists (body : gmap string value) (r : Request),
    snd (serving._create_or_update_serving_rest sample.K sample_backend.W
           "mnist" "/Projects/demo/Models/mnist" (VInt 2) "TENSORFLOW_SERVING" false
           (VBool false) (VStr "CREATE") (VInt 1) (VInt 1) (Some 7) (VInt 1) [])
      = [Sent r] /\
    req_data r = Some (json_dumps sample_backend.W (VDict body)) /\
    body !! "id" = Some (VInt 7) /\
    body !! "batchingEnabled" = Some (VBool false).
Proof.
  destruct (create_or_update_serving_rest_body sample.K sample_backend.W
              "mnist" "/Projects/demo/Models/mnist" (VInt 2) "TENSORFLOW_SERVING" false
              (VBool false) (VStr "CREATE") (VInt 1) (VInt 1) (Some 7) (VInt 1) [])
    as (body & dto & r & Hsnd & _ & _ & _ & Hdata & _ & _ & _ & _ & _ & _ & Hid & Hb & _).
  - apply (bool_decide_unpack _). vm_compute. exact I.
  - apply (bool_decide_unpack _). vm_compute. exact I.
  - exists body, r. repeat split; assumption.
Defined.

Lemma create_or_update_flow_witness :
  fst (serving.get_id sample.K sample_backend.W "my model" []) = Ok None /\
  fst (serving.create_or_update sample.K sample_backend.W "my model"
         "/Projects/demo/Models/mnist" (VInt 1) None false (VBool false)
         (VStr "CREATE") (VInt 1) (VInt 1) (VInt 1) []) =
    Raise (Exn ValueError [VStr "my model"]).
Proof.
  assert (Hid : fst (serving.get_id sample.K sample_backend.W "my model" []) = Ok None)
    by (vm_compute; reflexivity).
  split; [exact Hid |].
  pose proof (create_or_update_flow sample.K sample_backend.W "my model"
                "/Projects/demo/Models/mnist" (VInt 1) None false (VBool false)
                (VStr "CREATE") (VInt 1) (VInt 1) (VInt 1) None [] Hid) as Hflow.
  cbv zeta in Hflow.
  change (serving._validate_user_serving_input sample.K sample_backend.W "my model"
            (hdfs_expand_path sample_backend.W "/Projects/demo/Models/mnist") (VInt 1)
            (if Py.endswith (hdfs_expand_path sample_backend.W "/Projects/demo/Models/mnist") ".py"
             then MODEL_SERVER_FLASK sample.K
             else MODEL_SERVER_TENSORFLOW_SERVING sample.K)
            false (VBool false) (VStr "CREATE") (VInt 1) (VInt 1) (VInt 1))
    with (@Raise unit (Exn ValueError [VStr "my model"])) in Hflow.
  exact (proj1 Hflow).
Defined.

Lemma create_or_update_refuses_kfserving_witness :
  raised (fst (serving.create_or_update sample.K sample_backend.W "iris"
                 "/Projects/demo/Models/iris.py" (VInt 1) None true (VBool false)
                 (VStr "CREATE") (VInt 1) (VInt 1) (VInt 1) []))
    = Some ValueError.
Proof.
  refine (proj1 (create_or_update_refuses_kfserving sample.K sample_backend.W "iris"
                   "/Projects/demo/Models/iris.py" (VInt 1) None (VBool false)
                   (VStr "CREATE") (VInt 1) (VInt 1) (VInt 1) (Some 8) [] _ _)).
  - vm_compute. reflexivity.
  - left. vm_compute. reflexivity.
Defined.

(** The listing of [sample_listing] is well typed and is what its backend
    answers. *)
Lemma sample_listing_well_typed :
  Forall (fun d => listing.well_typed sample.K d = true) sample_listing.servings.
Proof. repeat (constructor; [vm_compute; reflexivity |]). constructor. Qed.

Lemma sample_listing_status (t : list event) :
  status_code (util_send_request sample_listing.W t
                 (serving.servings_request sample.K sample_listing.W)) = 200.
Proof. reflexivity. Qed.

Lemma sample_listing_json (t : list event) :
  json (util_send_request sample_listing.W t
          (serving.servings_request sample.K sample_listing.W)) =
    Ok (VList (VDict <$> sample_listing.servings)).
Proof. reflexivity. Qed.

Lemma get_id_of_listing_witness :
  fst (serving.get_id sample.K sample_listing.W "iris" []) = Ok (Some 8) /\
  fst (serving.get_id sample.K sample_listing.W "wine" []) = Ok None.
Proof.
  split.
  - rewrite (get_id_of_listing sample.K sample_listing.W "iris" []
               sample_listing.servings (sample_listing_status [])
               (sample_listing_json []) sample_listing_well_typed).
    vm_compute. reflexivity.
  - rewrite (get_id_of_listing sample.K sample_listing.W "wine" []
               sample_listing.servings (sample_listing_status [])
               (sample_listing_json []) sample_listing_well_typed).
    vm_compute. reflexivity.
Defined.

Lemma accessors_agree_with_exists_witness :
  (fst (serving.exists_ sample.K sample_listing.W "mnist" []) = Ok true /\
   fst (serving.get_status sample.K sample_listing.W "mnist" []) =
     Ok (VStr "Running") /\
   fst (serving.get_version sample.K sample_listing.W "mnist" []) = Ok (VInt 1)) /\
  (fst (serving.exists_ sample.K sample_listing.W "wine" []) = Ok false /\
   raised (fst (serving.get_status sample.K sample_listing.W "wine" [])) =
     Some ServingNotFound).
Proof.
  split.
  - pose proof (accessors_agree_with_exists sample.K sample_listing.W "mnist" []
                  sample_listing.servings (sample_listing_status [])
                  (sample_listing_json []) sample_listing_well_typed) as H.
    assert (Hfind : List.find (listing.has_name sample.K "mnist")
                      sample_listing.servings = Some sample_listing.mnist_with_topic)
      by (vm_compute; reflexivity).
    rewrite Hfind in H. destruct H as (Hex & _ & _ & _ & Hver & Hst).
    rewrite Hex, Hver, Hst. repeat split; vm_compute; reflexivity.
  - pose proof (accessors_agree_with_exists sample.K sample_listing.W "wine" []
                  sample_listing.servings (sample_listing_status [])
                  (sample_listing_json []) sample_listing_well_typed) as H.
    assert (Hfind : List.find (listing.has_name sample.K "wine")
                      sample_listing.servings = None)
      by (vm_compute; reflexivity).
    rewrite Hfind in H. destruct H as (Hex & _ & _ & _ & _ & Hst).
    split; assumption.
Defined.

Lemma serving_init_reads_keys_witness :
  exists s : serving.Serving,
    serving.Serving_init sample.K sample_listing.W
      (VDict sample_listing.mnist_with_topic) = Ok s /\
    serving.name s = "mnist" /\
    serving.id s = 7 /\
    serving.status s = VStr "Running" /\
    serving.kafka_topic_dto s = Some (VDict {[ "name" := VStr "mnist-inf" ]}).
Proof.
  destruct (serving_init_reads_keys sample.K sample_listing.W
              sample_listing.mnist_with_topic)
    as (s & Hinit & Hst & _ & Hname & _ & _ & _ & _ & _ & _ & Hid & Hkafka).
  - vm_compute. reflexivity.
  - exists s. split; [exact Hinit |].
    assert (Lst : sample_listing.mnist_with_topic !! JSON_SERVING_STATUS sample.K =
                    Some (VStr "Running")) by (vm_compute; reflexivity).
    assert (Lname : sample_listing.mnist_with_topic !! JSON_SERVING_NAME sample.K =
                      Some (VStr "mnist")) by (vm_compute; reflexivity).
    assert (Lid : sample_listing.mnist_with_topic !! JSON_SERVING_ID sample.K =
                    Some (VInt 7)) by (vm_compute; reflexivity).
    rewrite Lst in Hst. rewrite Lname in Hname. rewrite Lid in Hid.
    injection Hst as <-. injection Hname as <-. injection Hid as <-.
    rewrite Hkafka. repeat split.
Defined.

Lemma actions_on_unknown_name_witness :
  requests_of (snd (serving.delete sample.K sample_listing.W "wine" []))
    = [{| req_method := "GET";
          req_url := "/hopsworks-api/api/project/119/serving/";
          req_data := None; req_headers := None |};
       {| req_method := "DELETE";
          req_url := "/hopsworks-api/api/project/119/serving/None";
          req_data := None; req_headers := None |}].
Proof.
  apply (actions_on_unknown_name sample.K sample_listing.W "wine" []
           sample_listing.servings (sample_listing_status [])
           (sample_listing_json []) sample_listing_well_typed).
  repeat (constructor; [vm_compute; reflexivity |]). constructor.
Defined.
